(** * TensorHub Inception layers: a shallow embedding

    The two modules [tensorhub/layers/inception_v1.py] and
    [tensorhub/layers/inception_v2.py] define five Keras layer classes.  Each
    class stores its configuration in [__init__], creates its sub-layers in
    [build] and wires them together in [call].

    The embedding has three parts:
    - a small model of Python objects and exceptions (a state and error monad
      in which attribute assignments made before an exception survive it);
    - a model of the part of Keras the classes use: layer construction,
      layer application on shaped tensors, functional concatenation and the
      lazy-build protocol of [keras.layers.Layer.__call__];
    - the five classes, method by method, in the order of the source. *)

From Stdlib Require Import ZArith List Lia Bool.
From stdpp Require Import base gmap strings list.

Local Open Scope Z_scope.

(** ** Python results and exceptions *)

Inductive exn := TypeError | AttributeError | ValueError.

Inductive result (A : Type) :=
| Ok (a : A)
| Raise (e : exn).

Arguments Ok {A} a.
Arguments Raise {A} e.

(** Truthiness of an optional string, as tested by [if name:]: [None] and the
    empty string are falsy. *)
Definition truthy (name : option string) : bool :=
  match name with
  | None => false
  | Some EmptyString => false
  | Some (String _ _) => true
  end.

(** ** Keras values *)

(** Modelled from the spec: [tensorhub.utilities.activations] is not among the
    sources; the spec describes [relu] as an activation-function value that is
    handed through to every convolution unchanged.  Activations are therefore
    opaque tokens: the default [relu] and any other named activation. *)
Inductive activation :=
| relu
| other_activation (id : string).

Inductive padding_mode := same | valid.

(** A sub-layer instance.  [uid] is the identity of the Python object (and so
    of the weights the instance owns): two [Conv2D] calls with equal arguments
    give two different layers. *)
Inductive layer :=
| Conv2D_layer (uid : nat) (filters : Z) (kernel_size : Z * Z)
    (activation : activation) (strides : Z) (padding : padding_mode)
| MaxPool2D_layer (uid : nat) (pool_size : Z * Z) (strides : Z)
    (padding : padding_mode).

(** The content of a tensor is kept symbolic: it records which layers were
    applied to which input and what was concatenated.  Equal expressions
    denote equal tensors under every choice of weights. *)
#[warnings="-register-all"] Inductive expr :=
| Input (id : string)
| Apply (l : layer) (e : expr)
| Concat (axis : Z) (es : list expr).

Record tensor := Tensor { shape : list Z; content : expr }.

(** What an attribute created by [build] can hold. *)
Inductive value :=
| VLayer (l : layer)
| VTensor (t : tensor).

(** ** Objects and the interpreter state *)

(** A block instance.  [name] and [built] belong to the [keras.layers.Layer]
    base class; the next four fields are assigned by every [__init__]; [dict]
    holds the attributes that [build] adds later. *)
Record object := Object {
  name : option string;
  built : bool;
  num_filters : Z;
  act : activation;
  strides : Z;
  padding : padding_mode;
  dict : gmap string value }.

(** Observable framework events, most recent first. *)
Inductive event :=
| Constructed (l : layer)
| Called (l : layer) (x : tensor)
| Concatenated (xs : list tensor) (axis : Z).

Record state := State {
  self : object;
  next_uid : nat;
  trace : list event }.

(** State and exception monad: a raised exception keeps the state reached so
    far, as a Python exception keeps the attributes already assigned. *)
Definition M (A : Type) : Type := state -> result A * state.

Definition ret {A} (a : A) : M A := fun s => (Ok a, s).

Definition raise {A} (e : exn) : M A := fun s => (Raise e, s).

Definition bind {A B} (m : M A) (k : A -> M B) : M B :=
  fun s =>
    match m s with
    | (Ok a, s') => k a s'
    | (Raise e, s') => (Raise e, s')
    end.

Declare Scope py_scope.
Delimit Scope py_scope with py.
Notation "x <- c ;; k" := (bind c (fun x => k))
  (at level 100, c at next level, right associativity) : py_scope.
Notation "c ;; k" := (bind c (fun _ => k))
  (at level 100, right associativity) : py_scope.
Local Open Scope py_scope.

Definition get_self : M object := fun s => (Ok (self s), s).

Definition fresh_uid : M nat :=
  fun s => (Ok (next_uid s),
            {| self := self s; next_uid := S (next_uid s); trace := trace s |}).

Definition emit (e : event) : M unit :=
  fun s => (Ok tt,
            {| self := self s; next_uid := next_uid s; trace := e :: trace s |}).

Definition set_dict (d : gmap string value) (o : object) : object :=
  {| name := name o; built := built o; num_filters := num_filters o;
     act := act o; strides := strides o; padding := padding o; dict := d |}.

Definition set_built (b : bool) (o : object) : object :=
  {| name := name o; built := b; num_filters := num_filters o;
     act := act o; strides := strides o; padding := padding o;
     dict := dict o |}.

Definition modify_self (f : object -> object) : M unit :=
  fun s => (Ok tt,
            {| self := f (self s); next_uid := next_uid s; trace := trace s |}).

(** [self.n] read: a missing attribute raises [AttributeError]. *)
Definition getattr (n : string) : M value :=
  o <- get_self ;;
  match dict o !! n with
  | Some v => ret v
  | None => raise AttributeError
  end.

(** [self.n = v]. *)
Definition setattr (n : string) (v : value) : M unit :=
  modify_self (fun o => set_dict (<[n := v]> (dict o)) o).

(** [self.n = rhs] where [rhs] is evaluated against the current [self] and
    [inj] says what kind of value it produces. *)
Definition assign {A} (inj : A -> value) (n : string) (rhs : object -> M A)
    : M unit :=
  o <- get_self ;;
  v <- rhs o ;;
  setattr n (inj v).

(** ** The Keras primitives the layers use *)

(** [keras.layers.Conv2D(filters, kernel_size, activation=..., strides=...,
    padding=...)]: a new layer object.  The constructor rejects a filter
    count that is not positive with [ValueError], before any object
    exists. *)
Definition Conv2D (filters : Z) (kernel_size : Z * Z) (activation : activation)
    (strides : Z) (padding : padding_mode) : M layer :=
  if filters <=? 0 then raise ValueError
  else
    (uid <- fresh_uid ;;
     let l :=
       Conv2D_layer uid filters kernel_size activation strides padding in
     emit (Constructed l) ;;
     ret l).

(** [keras.layers.MaxPool2D(pool_size=..., strides=..., padding=...)]. *)
Definition MaxPool2D (pool_size : Z * Z) (strides : Z) (padding : padding_mode)
    : M layer :=
  uid <- fresh_uid ;;
  let l := MaxPool2D_layer uid pool_size strides padding in
  emit (Constructed l) ;;
  ret l.

(** Output length of one spatial dimension ([conv_utils.conv_output_length]):
    ceil(d / s) under "same" padding, ceil((d - k + 1) / s) under "valid". *)
Definition conv_output_length (d k s : Z) (p : padding_mode) : Z :=
  match p with
  | same => (d + s - 1) / s
  | valid => (d - k + s) / s
  end.

(** Shape inference of a convolution on a channels-last input.  The input
    needs rank 4 or more: the last three dimensions are height, width and
    channels, and every dimension before them is a batch dimension, which is
    kept. *)
Fixpoint conv2d_output_shape (f kh kw s : Z) (p : padding_mode)
    (shp : list Z) : option (list Z) :=
  match shp with
  | [] => None
  | b :: rest =>
      match rest with
      | [h; w; c] =>
          Some [b; conv_output_length h kh s p; conv_output_length w kw s p; f]
      | _ => option_map (cons b) (conv2d_output_shape f kh kw s p rest)
      end
  end.

(** Shape inference of a sub-layer on a channels-last input: a convolution
    accepts rank 4 or more, a max-pool rank 4 only. *)
Definition compute_output_shape (l : layer) (shp : list Z) : option (list Z) :=
  match l with
  | Conv2D_layer _ f (kh, kw) _ s p => conv2d_output_shape f kh kw s p shp
  | MaxPool2D_layer _ (ph, pw) s p =>
      match shp with
      | [b; h; w; c] =>
          Some [b; conv_output_length h ph s p; conv_output_length w pw s p; c]
      | _ => None
      end
  end.

Definition layer_strides (l : layer) : Z :=
  match l with
  | Conv2D_layer _ _ _ _ s _ => s
  | MaxPool2D_layer _ _ s _ => s
  end.

Definition layer_padding (l : layer) : padding_mode :=
  match l with
  | Conv2D_layer _ _ _ _ _ p => p
  | MaxPool2D_layer _ _ _ p => p
  end.

Definition positive_dims (shp : list Z) : bool :=
  forallb (fun d => 0 <? d) shp.

(** Applying a sub-layer to a tensor.  The framework rejects an input whose
    rank the layer does not accept, a stride below 1, and any empty or
    negative dimension in the input or the result. *)
Definition apply_layer (l : layer) (x : tensor) : M tensor :=
  match compute_output_shape l (shape x) with
  | Some shp =>
      if (1 <=? layer_strides l) && positive_dims (shape x) && positive_dims shp
      then emit (Called l x) ;; ret (Tensor shp (Apply l (content x)))
      else raise ValueError
  | None => raise ValueError
  end.

(** Joins two shapes along position [ax]; every other position must agree. *)
Fixpoint merge_shape (ax : nat) (s1 s2 : list Z) : option (list Z) :=
  match s1, s2 with
  | d1 :: r1, d2 :: r2 =>
      match ax with
      | O => if decide (r1 = r2) then Some ((d1 + d2) :: r1) else None
      | S ax' =>
          if decide (d1 = d2)
          then option_map (cons d1) (merge_shape ax' r1 r2)
          else None
      end
  | _, _ => None
  end.

Fixpoint concat_shape (ax : nat) (acc : list Z) (rest : list (list Z))
    : option (list Z) :=
  match rest with
  | [] => Some acc
  | s :: rest' =>
      match merge_shape ax acc s with
      | Some acc' => concat_shape ax acc' rest'
      | None => None
      end
  end.

(** A negative axis counts from the end. *)
Definition normalize_axis (axis : Z) (rank : nat) : option nat :=
  let a := if axis <? 0 then axis + Z.of_nat rank else axis in
  if (0 <=? a) && (a <? Z.of_nat rank) then Some (Z.to_nat a) else None.

(** [keras.layers.concatenate(inputs, axis=-1)], the functional interface.
    [inputs] is a required positional parameter: a call that omits it
    ([None] here) raises [TypeError] before anything is computed.  Otherwise
    the list needs at least two tensors whose shapes agree off the axis. *)
Definition concatenate (inputs : option (list tensor)) (axis : Z) : M tensor :=
  match inputs with
  | None => raise TypeError
  | Some [] | Some [_] => raise ValueError
  | Some (x :: xs) =>
      match normalize_axis axis (length (shape x)) with
      | Some ax =>
          match concat_shape ax (shape x) (map shape xs) with
          | Some shp =>
              emit (Concatenated (x :: xs) axis) ;;
              ret (Tensor shp (Concat axis (map content (x :: xs))))
          | None => raise ValueError
          end
      | None => raise ValueError
      end
  end.

(** [f(x)] for an attribute value [f]: a layer is applied, a tensor is not
    callable. *)
Definition call_value (f : value) (x : tensor) : M tensor :=
  match f with
  | VLayer l => apply_layer l x
  | VTensor _ => raise TypeError
  end.

(** [f([x1, ..., xn])] and [f([x1, ..., xn], axis=a)]: a convolution or
    pooling layer takes exactly one tensor, a tensor is not callable. *)
Definition call_value_list (f : value) (xs : list tensor) (axis : option Z)
    : M tensor :=
  match f with
  | VLayer _ => raise ValueError
  | VTensor _ => raise TypeError
  end.

(** [self.n(x)]. *)
Definition call_attr (n : string) (x : tensor) : M tensor :=
  f <- getattr n ;;
  call_value f x.

(** [self.n([...])] and [self.n([...], axis=a)]. *)
Definition call_attr_list (n : string) (xs : list tensor) (axis : option Z)
    : M tensor :=
  f <- getattr n ;;
  call_value_list f xs axis.

(** [keras.layers.Layer.__call__]: the first call runs the subclass's [build]
    with the input shape and marks the instance built once [build] has
    returned; every call then runs the subclass's [call]. *)
Definition Layer___call__ (build : list Z -> M unit) (call : tensor -> M tensor)
    (x : tensor) : M tensor :=
  o <- get_self ;;
  (if built o then ret tt
   else (build (shape x) ;; modify_self (set_built true))) ;;
  call x.

(** ** tensorhub/layers/inception_v1.py *)

Module inception_v1.

Module BasicLayer.

(** [class BasicLayer(keras.layers.Layer)], [__init__(self, activation=relu,
    name=None)].  Without a truthy [name] the base class picks the name. *)
Definition __init__ (activation : activation) (name : option string) : object :=
  {| name := if truthy name then name else None; built := false;
     num_filters := 64; act := activation; strides := 1; padding := same;
     dict := ∅ |}.

Definition build (input_shape : list Z) : M unit :=
  assign VLayer "conv_block_a" (fun self =>
    Conv2D (num_filters self) (1, 1) (act self)
      (strides self) (padding self)) ;;
  assign VLayer "conv_block_b" (fun self =>
    Conv2D (num_filters self) (3, 3) (act self)
      (strides self) (padding self)) ;;
  assign VLayer "conv_block_c" (fun self =>
    Conv2D (num_filters self) (5, 5) (act self)
      (strides self) (padding self)) ;;
  assign VLayer "maxpool_block" (fun self =>
    MaxPool2D (3, 3) (strides self) (padding self)) ;;
  assign VTensor "concatenate" (fun _ => concatenate None (-1)).

(** The statements of [call] up to the final line: the four branch outputs in
    the order of the list literal that [call] hands to [self.concatenate]. *)
Definition call_branches (x : tensor) : M (list tensor) :=
  out_a <- call_attr "conv_block_a" x ;;
  out_b <- call_attr "conv_block_b" x ;;
  out_c <- call_attr "conv_block_a" x ;;
  out_d <- call_attr "maxpool_block" x ;;
  ret [out_a; out_b; out_c; out_d].

Definition call (x : tensor) : M tensor :=
  outs <- call_branches x ;;
  output <- call_attr_list "concatenate" outs None ;;
  ret output.

Definition __call__ : tensor -> M tensor := Layer___call__ build call.

End BasicLayer.

Module ReductionLayer.

(** [class ReductionLayer:] has no base class, so [super().__init__] is
    [object.__init__]: it accepts no keyword argument, and a truthy [name]
    raises [TypeError]. *)
Definition __init__ (activation : activation) (name : option string)
    : result object :=
  if truthy name then Raise TypeError
  else Ok {| name := None; built := false;
             num_filters := 64; act := activation; strides := 1;
             padding := same; dict := ∅ |}.

Definition build (input_shape : list Z) : M unit :=
  assign VLayer "conv_1a" (fun self =>
    Conv2D (num_filters self) (1, 1) (act self)
      (strides self * strides self) (padding self)) ;;
  assign VLayer "conv_1b" (fun self =>
    Conv2D (num_filters self) (1, 1) (act self)
      (strides self) (padding self)) ;;
  assign VLayer "conv_1c" (fun self =>
    Conv2D (num_filters self) (1, 1) (act self)
      (strides self) (padding self)) ;;
  assign VLayer "conv_1d" (fun self =>
    Conv2D (num_filters self) (1, 1) (act self)
      (strides self) (padding self)) ;;
  assign VLayer "conv_3" (fun self =>
    Conv2D (num_filters self) (3, 3) (act self)
      (strides self) (padding self)) ;;
  assign VLayer "conv_5" (fun self =>
    Conv2D (num_filters self) (5, 5) (act self)
      (strides self) (padding self)) ;;
  assign VLayer "maxpool_block" (fun self =>
    MaxPool2D (3, 3) (strides self) (padding self)) ;;
  assign VTensor "concatenate" (fun _ => concatenate None (-1)).

Definition call_branches (x : tensor) : M (list tensor) :=
  out_a <- call_attr "conv_1a" x ;;
  out_b_inter <- call_attr "conv_1b" x ;;
  out_b <- call_attr "conv_3" out_b_inter ;;
  out_c_inter <- call_attr "conv_1c" x ;;
  out_c <- call_attr "conv_5" out_c_inter ;;
  out_d_inter <- call_attr "maxpool_block" x ;;
  out_d <- call_attr "conv_1d" out_d_inter ;;
  ret [out_a; out_b; out_c; out_d].

Definition call (x : tensor) : M tensor :=
  outs <- call_branches x ;;
  output <- call_attr_list "concatenate" outs None ;;
  ret output.

(** The class defines no [__call__] and inherits none: calling an instance
    raises [TypeError] and runs neither [build] nor [call]. *)
Definition __call__ (x : tensor) : M tensor := raise TypeError.

End ReductionLayer.

End inception_v1.

(** ** tensorhub/layers/inception_v2.py *)

Module inception_v2.

Module BasicLayer.

(** [__init__(self, num_filters=28, activation=relu, name=None)]. *)
Definition __init__ (num_filters : Z) (activation : activation)
    (name : option string) : object :=
  {| name := if truthy name then name else None; built := false;
     num_filters := num_filters; act := activation; strides := 1;
     padding := same; dict := ∅ |}.

Definition build (input_shape : list Z) : M unit :=
  assign VLayer "conv_1a" (fun self =>
    Conv2D (num_filters self) (1, 1) (act self)
      (strides self * strides self) (padding self)) ;;
  assign VLayer "conv_1b" (fun self =>
    Conv2D (num_filters self) (1, 1) (act self)
      (strides self) (padding self)) ;;
  assign VLayer "conv_3b" (fun self =>
    Conv2D (num_filters self) (3, 3) (act self)
      (strides self) (padding self)) ;;
  assign VLayer "conv_1c" (fun self =>
    Conv2D (num_filters self) (1, 1) (act self)
      (strides self) (padding self)) ;;
  assign VLayer "conv_3c1" (fun self =>
    Conv2D (num_filters self) (3, 3) (act self)
      (strides self) (padding self)) ;;
  assign VLayer "conv_3c2" (fun self =>
    Conv2D (num_filters self) (3, 3) (act self)
      (strides self) (padding self)) ;;
  assign VLayer "conv_1d" (fun self =>
    Conv2D (num_filters self) (1, 1) (act self)
      (strides self) (padding self)) ;;
  assign VLayer "maxpool_layer" (fun self =>
    MaxPool2D (3, 3) (strides self) (padding self)) ;;
  assign VTensor "concat_layer" (fun _ => concatenate None (-1)).

Definition call_branches (x : tensor) : M (list tensor) :=
  out_a <- call_attr "conv_1a" x ;;
  out_b_inter <- call_attr "conv_1b" x ;;
  out_b <- call_attr "conv_3b" out_b_inter ;;
  out_c_inter <- call_attr "conv_1c" x ;;
  out_c_inter <- call_attr "conv_3c1" out_c_inter ;;
  out_c <- call_attr "conv_3c2" out_c_inter ;;
  out_d_inter <- call_attr "maxpool_layer" x ;;
  out_d <- call_attr "conv_1d" out_d_inter ;;
  ret [out_a; out_b; out_c; out_d].

Definition call (x : tensor) : M tensor :=
  outs <- call_branches x ;;
  output <- call_attr_list "concat_layer" outs (Some (-1)) ;;
  ret output.

Definition __call__ : tensor -> M tensor := Layer___call__ build call.

End BasicLayer.

Module DeepLayer.

(** [__init__(self, num_filters=28, activation=relu, name=None)]. *)
Definition __init__ (num_filters : Z) (activation : activation)
    (name : option string) : object :=
  {| name := if truthy name then name else None; built := false;
     num_filters := num_filters; act := activation; strides := 1;
     padding := same; dict := ∅ |}.

Definition build (input_shape : list Z) : M unit :=
  assign VLayer "conv_1a" (fun self =>
    Conv2D (num_filters self) (1, 1) (act self)
      (strides self * strides self) (padding self)) ;;
  assign VLayer "conv_1b" (fun self =>
    Conv2D (num_filters self) (1, 1) (act self)
      (strides self) (padding self)) ;;
  assign VLayer "conv_1_3b" (fun self =>
    Conv2D (num_filters self) (1, 3) (act self)
      (strides self) (padding self)) ;;
  assign VLayer "conv_3_1b" (fun self =>
    Conv2D (num_filters self) (3, 1) (act self)
      (strides self) (padding self)) ;;
  assign VLayer "conv_1c" (fun self =>
    Conv2D (num_filters self) (1, 1) (act self)
      (strides self) (padding self)) ;;
  assign VLayer "conv_1_3c1" (fun self =>
    Conv2D (num_filters self) (1, 3) (act self)
      (strides self) (padding self)) ;;
  assign VLayer "conv_3_1c1" (fun self =>
    Conv2D (num_filters self) (3, 1) (act self)
      (strides self) (padding self)) ;;
  assign VLayer "conv_1_3c2" (fun self =>
    Conv2D (num_filters self) (1, 3) (act self)
      (strides self) (padding self)) ;;
  assign VLayer "conv_3_1c2" (fun self =>
    Conv2D (num_filters self) (3, 1) (act self)
      (strides self) (padding self)) ;;
  assign VLayer "conv_1d" (fun self =>
    Conv2D (num_filters self) (1, 1) (act self)
      (strides self) (padding self)) ;;
  assign VLayer "maxpool_layer" (fun self =>
    MaxPool2D (3, 3) (strides self) (padding self)).

Definition call_branches (x : tensor) : M (list tensor) :=
  out_a <- call_attr "conv_1a" x ;;
  out_b_inter <- call_attr "conv_1b" x ;;
  out_b_inter <- call_attr "conv_1_3b" out_b_inter ;;
  out_b <- call_attr "conv_3_1b" out_b_inter ;;
  out_c_inter <- call_attr "conv_1c" x ;;
  out_c_inter <- call_attr "conv_1_3c1" out_c_inter ;;
  out_c_inter <- call_attr "conv_3_1c1" out_c_inter ;;
  out_c_inter <- call_attr "conv_1_3c2" out_c_inter ;;
  out_c <- call_attr "conv_3_1c2" out_c_inter ;;
  out_d_inter <- call_attr "maxpool_layer" x ;;
  out_d <- call_attr "conv_1d" out_d_inter ;;
  ret [out_a; out_b; out_c; out_d].

(** Here the functional [concatenate] is called inside [call], with the list
    of branch outputs. *)
Definition call (x : tensor) : M tensor :=
  outs <- call_branches x ;;
  output <- concatenate (Some outs) (-1) ;;
  ret output.

Definition __call__ : tensor -> M tensor := Layer___call__ build call.

End DeepLayer.

Module WideLayer.

(** [__init__(self, num_filters=28, activation=relu, name=None)]. *)
Definition __init__ (num_filters : Z) (activation : activation)
    (name : option string) : object :=
  {| name := if truthy name then name else None; built := false;
     num_filters := num_filters; act := activation; strides := 1;
     padding := same; dict := ∅ |}.

Definition build (input_shape : list Z) : M unit :=
  assign VLayer "conv_1a" (fun self =>
    Conv2D (num_filters self) (1, 1) (act self)
      (strides self * strides self) (padding self)) ;;
  assign VLayer "conv_1b" (fun self =>
    Conv2D (num_filters self) (1, 1) (act self)
      (strides self) (padding self)) ;;
  assign VLayer "conv_1_3b" (fun self =>
    Conv2D (num_filters self) (1, 3) (act self)
      (strides self) (padding self)) ;;
  assign VLayer "conv_3_1b" (fun self =>
    Conv2D (num_filters self) (3, 1) (act self)
      (strides self) (padding self)) ;;
  assign VLayer "conv_1c" (fun self =>
    Conv2D (num_filters self) (1, 1) (act self)
      (strides self) (padding self)) ;;
  assign VLayer "conv_3c" (fun self =>
    Conv2D (num_filters self) (3, 3) (act self)
      (strides self) (padding self)) ;;
  assign VLayer "conv_1_3c" (fun self =>
    Conv2D (num_filters self) (1, 3) (act self)
      (strides self) (padding self)) ;;
  assign VLayer "conv_3_1c" (fun self =>
    Conv2D (num_filters self) (3, 1) (act self)
      (strides self) (padding self)) ;;
  assign VLayer "conv_1d" (fun self =>
    Conv2D (num_filters self) (1, 1) (act self)
      (strides self) (padding self)) ;;
  assign VLayer "maxpool_layer" (fun self =>
    MaxPool2D (3, 3) (strides self) (padding self)) ;;
  assign VTensor "concat_layer" (fun _ => concatenate None (-1)).

Definition call_branches (x : tensor) : M (list tensor) :=
  out_a <- call_attr "conv_1a" x ;;
  out_b_inter <- call_attr "conv_1b" x ;;
  out_b1 <- call_attr "conv_1_3b" out_b_inter ;;
  out_b2 <- call_attr "conv_3_1b" out_b_inter ;;
  out_c_inter <- call_attr "conv_1c" x ;;
  out_c_inter <- call_attr "conv_3c" out_c_inter ;;
  out_c1 <- call_attr "conv_1_3c" out_c_inter ;;
  out_c2 <- call_attr "conv_3_1c" out_c_inter ;;
  out_d_inter <- call_attr "maxpool_layer" x ;;
  out_d <- call_attr "conv_1d" out_d_inter ;;
  ret [out_a; out_b1; out_b2; out_c1; out_c1; out_d].

Definition call (x : tensor) : M tensor :=
  outs <- call_branches x ;;
  output <- call_attr_list "concat_layer" outs (Some (-1)) ;;
  ret output.

Definition __call__ : tensor -> M tensor := Layer___call__ build call.

End WideLayer.

End inception_v2.

(** ** Observations on a run *)

(** Number of sub-layers constructed so far. *)
Fixpoint constructions (tr : list event) : nat :=
  match tr with
  | [] => 0
  | Constructed _ :: tr' => S (constructions tr')
  | _ :: tr' => constructions tr'
  end.

(** Number of concatenations performed so far. *)
Fixpoint concatenations (tr : list event) : nat :=
  match tr with
  | [] => 0
  | Concatenated _ _ :: tr' => S (concatenations tr')
  | _ :: tr' => concatenations tr'
  end.

(** Number of sub-layer applications performed so far. *)
Fixpoint applications (tr : list event) : nat :=
  match tr with
  | [] => 0
  | Called _ _ :: tr' => S (applications tr')
  | _ :: tr' => applications tr'
  end.

(** The layers constructed so far, most recent first. *)
Fixpoint constructed_layers (tr : list event) : list layer :=
  match tr with
  | [] => []
  | Constructed l :: tr' => l :: constructed_layers tr'
  | _ :: tr' => constructed_layers tr'
  end.

(** The layers applied so far, most recent first. *)
Fixpoint called_layers (tr : list event) : list layer :=
  match tr with
  | [] => []
  | Called l _ :: tr' => l :: called_layers tr'
  | _ :: tr' => called_layers tr'
  end.

Definition stride1_same (l : layer) : bool :=
  (layer_strides l =? 1) &&
  match layer_padding l with same => true | valid => false end.

(** Size of the channel axis of a channels-last tensor. *)
Definition channels (t : tensor) : Z := List.last (shape t) 0.

(** State after [n] successive invocations [f x], whatever each returns or
    raises. *)
Fixpoint invoke_n (f : tensor -> M tensor) (n : nat) (x : tensor) (s : state)
    : state :=
  match n with
  | O => s
  | S k => invoke_n f k x (snd (f x s))
  end.

(** A computation that reads nothing but [self], constructs no layer and
    changes nothing but the trace: its outcome is a function of [self]
    alone. *)
Definition reads_self_only {A} (m : M A) : Prop :=
  forall s,
    self (snd (m s)) = self s /\
    next_uid (snd (m s)) = next_uid s /\
    constructions (trace (snd (m s))) = constructions (trace s) /\
    forall s', self s' = self s -> fst (m s') = fst (m s).

(** The channel-axis concatenation of the branch outputs, computed with the
    functional [concatenate] the way [DeepLayer.call] does. *)
Definition concat_branches (branches : tensor -> M (list tensor)) (x : tensor)
    : M tensor :=
  outs <- branches x ;;
  concatenate (Some outs) (-1).

Definition result_shape (r : result tensor) : option (list Z) :=
  match r with
  | Ok t => Some (shape t)
  | Raise _ => None
  end.

Definition result_channels (r : result tensor) : option Z :=
  match r with
  | Ok t => Some (channels t)
  | Raise _ => None
  end.

(** The identity of a sub-layer instance. *)
Definition layer_uid (l : layer) : nat :=
  match l with
  | Conv2D_layer uid _ _ _ _ _ => uid
  | MaxPool2D_layer uid _ _ _ => uid
  end.

(** The tensor of the spec's concrete scenario: shape (1, 32, 32, 3). *)
Definition x_1_32_32_3 : tensor := Tensor [1; 32; 32; 3] (Input "x").

(** The outcome of a [build] that constructs [c] sub-layers and ends in
    [r]: the configuration of the instance is kept. *)
Definition build_outcome (build : list Z -> M unit) (r : result unit)
    (c : nat) : Prop :=
  forall shp s, 0 < num_filters (self s) ->
    exists s',
      build shp s = (r, s') /\
      built (self s') = built (self s) /\
      num_filters (self s') = num_filters (self s) /\
      constructions (trace s') = (c + constructions (trace s))%nat /\
      concatenations (trace s') = concatenations (trace s).

(** A [build] that stops at its first line when the filter count is not
    positive: nothing is constructed and nothing is stored. *)
Definition build_rejects (build : list Z -> M unit) : Prop :=
  forall shp s, num_filters (self s) <= 0 ->
    build shp s = (Raise ValueError, s).

(** * Properties *)

(** ** The monad *)

Lemma bind_Ok {A B} (m : M A) (k : A -> M B) s a s' :
  m s = (Ok a, s') -> bind m k s = k a s'.
Proof. intros H. unfold bind. now rewrite H. Qed.

Lemma bind_Raise {A B} (m : M A) (k : A -> M B) s e s' :
  m s = (Raise e, s') -> bind m k s = (Raise e, s').
Proof. intros H. unfold bind. now rewrite H. Qed.

(** ** Shapes *)

Lemma conv_output_length_same_1 d k : conv_output_length d k 1 same = d.
Proof.
  unfold conv_output_length.
  replace (d + 1 - 1) with d by lia.
  apply Z.div_1_r.
Qed.

Lemma positive_dims_4 b h w c :
  0 < b -> 0 < h -> 0 < w -> 0 < c -> positive_dims [b; h; w; c] = true.
Proof.
  intros Hb Hh Hw Hc. unfold positive_dims, forallb.
  apply Z.ltb_lt in Hb, Hh, Hw, Hc.
  now rewrite Hb, Hh, Hw, Hc.
Qed.

Lemma merge_shape_channels b h w c1 c2 :
  merge_shape 3 [b; h; w; c1] [b; h; w; c2] = Some [b; h; w; c1 + c2].
Proof.
  cbn [merge_shape].
  repeat (rewrite decide_True by reflexivity; cbn [option_map]).
  reflexivity.
Qed.

Lemma concat_shape_channels b h w c (cs : list Z) :
  concat_shape 3 [b; h; w; c] (map (fun c' => [b; h; w; c']) cs)
  = Some [b; h; w; fold_left Z.add cs c].
Proof.
  revert c. induction cs as [|c' cs IH]; intros c; cbn [map concat_shape fold_left].
  - reflexivity.
  - rewrite merge_shape_channels. apply IH.
Qed.

(** ** Applying sub-layers *)

Lemma apply_Conv2D_same uid f k a x b h w c o n tr :
  shape x = [b; h; w; c] ->
  0 < b -> 0 < h -> 0 < w -> 0 < c -> 0 < f ->
  apply_layer (Conv2D_layer uid f k a 1 same) x (State o n tr)
  = (Ok (Tensor [b; h; w; f]
           (Apply (Conv2D_layer uid f k a 1 same) (content x))),
     State o n (Called (Conv2D_layer uid f k a 1 same) x :: tr)).
Proof.
  intros Hx Hb Hh Hw Hc Hf. unfold apply_layer. rewrite Hx.
  destruct k as [kh kw].
  cbn [compute_output_shape conv2d_output_shape layer_strides].
  rewrite !conv_output_length_same_1.
  rewrite !positive_dims_4 by assumption.
  reflexivity.
Qed.

Lemma apply_MaxPool2D_same uid k x b h w c o n tr :
  shape x = [b; h; w; c] ->
  0 < b -> 0 < h -> 0 < w -> 0 < c ->
  apply_layer (MaxPool2D_layer uid k 1 same) x (State o n tr)
  = (Ok (Tensor [b; h; w; c]
           (Apply (MaxPool2D_layer uid k 1 same) (content x))),
     State o n (Called (MaxPool2D_layer uid k 1 same) x :: tr)).
Proof.
  intros Hx Hb Hh Hw Hc. unfold apply_layer. rewrite Hx.
  destruct k as [kh kw]. cbn [compute_output_shape layer_strides].
  rewrite !conv_output_length_same_1.
  rewrite !positive_dims_4 by assumption.
  reflexivity.
Qed.

Lemma call_attr_layer n l x o k tr :
  dict o !! n = Some (VLayer l) ->
  call_attr n x (State o k tr) = apply_layer l x (State o k tr).
Proof.
  intros H. unfold call_attr, getattr, bind, get_self. cbn [self].
  now rewrite H.
Qed.

Lemma call_attr_list_missing n xs axis o k tr :
  dict o !! n = None ->
  call_attr_list n xs axis (State o k tr)
  = (Raise AttributeError, State o k tr).
Proof.
  intros H. unfold call_attr_list, getattr, bind, get_self. cbn [self].
  now rewrite H.
Qed.

(** ** Functional concatenation *)

Lemma concatenate_channels x1 x2 xs b h w c1 c2 cs o n tr :
  shape x1 = [b; h; w; c1] ->
  shape x2 = [b; h; w; c2] ->
  map shape xs = map (fun c' => [b; h; w; c']) cs ->
  concatenate (Some (x1 :: x2 :: xs)) (-1) (State o n tr)
  = (Ok (Tensor [b; h; w; fold_left Z.add (c2 :: cs) c1]
           (Concat (-1) (map content (x1 :: x2 :: xs)))),
     State o n (Concatenated (x1 :: x2 :: xs) (-1) :: tr)).
Proof.
  intros H1 H2 Hxs. unfold concatenate. rewrite H1.
  change (normalize_axis (-1) (length [b; h; w; c1])) with (Some 3%nat).
  cbn [map]. rewrite H2, Hxs.
  change ([b; h; w; c2] :: map (fun c' => [b; h; w; c']) cs)
    with (map (fun c' => [b; h; w; c']) (c2 :: cs)).
  rewrite concat_shape_channels.
  reflexivity.
Qed.

(** ** The lazy-build protocol *)

Lemma Layer___call___built build call x s :
  built (self s) = true -> Layer___call__ build call x s = call x s.
Proof.
  intros H. unfold Layer___call__, bind, get_self, ret. now rewrite H.
Qed.

Lemma Layer___call___build_raises build call x s e s' :
  built (self s) = false ->
  build (shape x) s = (Raise e, s') ->
  Layer___call__ build call x s = (Raise e, s').
Proof.
  intros H Hb. unfold Layer___call__, bind, get_self. now rewrite H, Hb.
Qed.

Lemma Layer___call___build_returns build call x s o' n' tr' :
  built (self s) = false ->
  build (shape x) s = (Ok tt, State o' n' tr') ->
  Layer___call__ build call x s = call x (State (set_built true o') n' tr').
Proof.
  intros H Hb. unfold Layer___call__, bind, get_self, modify_self.
  now rewrite H, Hb.
Qed.

(** ** What each [build] does, from an arbitrary state *)

Lemma Z_leb_positive f : 0 < f -> (f <=? 0) = false.
Proof. apply Z.leb_gt. Qed.

Lemma Z_leb_nonpositive f : f <= 0 -> (f <=? 0) = true.
Proof. apply Z.leb_le. Qed.

(** Unfolds the monad and the methods, leaving attribute maps and the test of
    the filter count untouched. *)
Ltac unfold_python :=
  cbv beta iota zeta delta
    [bind ret raise get_self fresh_uid emit modify_self setattr assign
     Conv2D MaxPool2D concatenate fst snd self next_uid trace
     set_dict set_built name built num_filters act strides padding dict
     inception_v1.BasicLayer.build inception_v1.ReductionLayer.build
     inception_v2.BasicLayer.build inception_v2.DeepLayer.build
     inception_v2.WideLayer.build].

(** Runs a [build]; every [Conv2D] passes its test when the filter count is
    known to be positive. *)
Ltac run_python :=
  unfold_python;
  repeat (rewrite Z_leb_positive by first [ assumption | reflexivity ];
          unfold_python).

(** Runs a [build] whose first [Conv2D] rejects the filter count. *)
Ltac run_python_rejected :=
  unfold_python;
  rewrite Z_leb_nonpositive by assumption;
  unfold_python.

Ltac build_outcome_tac :=
  intros shp [o n tr] Hf; cbn [self num_filters] in Hf;
  run_python; eexists;
  split; [ reflexivity | ];
  split; [ reflexivity | ];
  split; [ reflexivity | ];
  split; reflexivity.

Ltac build_rejects_tac :=
  intros shp [o n tr] Hf; cbn [self num_filters] in Hf;
  run_python_rejected; reflexivity.

Lemma v1_basic_build :
  build_outcome inception_v1.BasicLayer.build (Raise TypeError) 4.
Proof. build_outcome_tac. Qed.

Lemma v2_basic_build :
  build_outcome inception_v2.BasicLayer.build (Raise TypeError) 8.
Proof. build_outcome_tac. Qed.

Lemma v2_wide_build :
  build_outcome inception_v2.WideLayer.build (Raise TypeError) 10.
Proof. build_outcome_tac. Qed.

Lemma v2_deep_build :
  build_outcome inception_v2.DeepLayer.build (Ok tt) 11.
Proof. build_outcome_tac. Qed.

Lemma v2_basic_build_rejects : build_rejects inception_v2.BasicLayer.build.
Proof. build_rejects_tac. Qed.

Lemma v2_wide_build_rejects : build_rejects inception_v2.WideLayer.build.
Proof. build_rejects_tac. Qed.

Lemma v2_deep_build_rejects : build_rejects inception_v2.DeepLayer.build.
Proof. build_rejects_tac. Qed.

(** ** Computations that only read [self] *)

Create HintDb pure discriminated.

Lemma reads_self_only_ret {A} (a : A) : reads_self_only (ret a).
Proof. intros s. now cbn. Qed.

Lemma reads_self_only_raise {A} e : reads_self_only (@raise A e).
Proof. intros s. now cbn. Qed.

Lemma reads_self_only_emit_Called l x : reads_self_only (emit (Called l x)).
Proof. intros s. now cbn. Qed.

Lemma reads_self_only_emit_Concatenated xs axis :
  reads_self_only (emit (Concatenated xs axis)).
Proof. intros s. now cbn. Qed.

Lemma reads_self_only_bind {A B} (m : M A) (k : A -> M B) :
  reads_self_only m -> (forall a, reads_self_only (k a)) ->
  reads_self_only (bind m k).
Proof.
  intros Hm Hk s. destruct (Hm s) as (Hself & Huid & Hcons & Hfst).
  unfold bind. destruct (m s) as [[a|e] s1] eqn:Hms; cbn in Hself, Huid, Hcons.
  - destruct (Hk a s1) as (Hself' & Huid' & Hcons' & Hfst').
    split; [congruence | split; [congruence | split; [congruence |]]].
    intros s' Hs'. specialize (Hfst s' Hs').
    destruct (Hm s') as (Hself1 & _ & _).
    destruct (m s') as [r' s1']. cbn in Hfst, Hself1. subst r'.
    apply Hfst'. congruence.
  - split; [assumption | split; [assumption | split; [assumption |]]].
    intros s' Hs'. specialize (Hfst s' Hs').
    destruct (m s') as [r' s1']. cbn in Hfst. now subst r'.
Qed.

Lemma reads_self_only_getattr n : reads_self_only (getattr n).
Proof.
  intros s. unfold getattr, bind, get_self.
  destruct (dict (self s) !! n) eqn:Hn; cbn;
    (split; [reflexivity | split; [reflexivity | split; [reflexivity |]]]);
    intros s' Hs'; rewrite Hs', Hn; reflexivity.
Qed.

Lemma reads_self_only_apply_layer l x : reads_self_only (apply_layer l x).
Proof.
  unfold apply_layer.
  destruct (compute_output_shape l (shape x)) as [shp|];
    [|apply reads_self_only_raise].
  destruct (_ && _);
    [|apply reads_self_only_raise].
  apply reads_self_only_bind; intros;
    [apply reads_self_only_emit_Called | apply reads_self_only_ret].
Qed.

Lemma reads_self_only_call_value f x : reads_self_only (call_value f x).
Proof.
  destruct f; cbn [call_value];
    [apply reads_self_only_apply_layer | apply reads_self_only_raise].
Qed.

Lemma reads_self_only_call_attr n x : reads_self_only (call_attr n x).
Proof.
  apply reads_self_only_bind;
    [apply reads_self_only_getattr | intros; apply reads_self_only_call_value].
Qed.

Lemma reads_self_only_concatenate inputs axis :
  reads_self_only (concatenate inputs axis).
Proof.
  unfold concatenate.
  destruct inputs as [[|x [|x' xs]]|]; try apply reads_self_only_raise.
  destruct (normalize_axis _ _); [|apply reads_self_only_raise].
  destruct (concat_shape _ _ _); [|apply reads_self_only_raise].
  apply reads_self_only_bind; intros;
    [apply reads_self_only_emit_Concatenated | apply reads_self_only_ret].
Qed.

#[local] Hint Resolve reads_self_only_ret reads_self_only_raise
  reads_self_only_call_attr reads_self_only_concatenate : pure.

Ltac pure_call :=
  repeat first
    [ solve [auto with pure]
    | apply reads_self_only_bind; [|intros] ].

Lemma v2_deep_call_pure x : reads_self_only (inception_v2.DeepLayer.call x).
Proof.
  unfold inception_v2.DeepLayer.call, inception_v2.DeepLayer.call_branches.
  pure_call.
Qed.

(** ** Invoking a block many times *)

Lemma Layer___call___unbuilt_raising build call x s (c : nat) :
  build_outcome build (Raise TypeError) c ->
  built (self s) = false /\ 0 < num_filters (self s) ->
  exists s',
    Layer___call__ build call x s = (Raise TypeError, s') /\
    (built (self s') = false /\ 0 < num_filters (self s')) /\
    constructions (trace s') = (c + constructions (trace s))%nat /\
    concatenations (trace s') = concatenations (trace s).
Proof.
  intros Hbuild [Hb Hf].
  destruct (Hbuild (shape x) s Hf) as (s1 & Hs1 & Hb1 & Hf1 & Hc1 & Hk1).
  exists s1. rewrite (Layer___call___build_raises build call x s _ _ Hb Hs1).
  rewrite Hb in Hb1. rewrite <- Hf1 in Hf. auto.
Qed.

Lemma Layer___call___rejected build call x s :
  build_rejects build ->
  built (self s) = false /\ num_filters (self s) <= 0 ->
  Layer___call__ build call x s = (Raise ValueError, s).
Proof.
  intros Hbuild [Hb Hf].
  apply Layer___call___build_raises; [exact Hb | now apply Hbuild].
Qed.

Lemma invoke_n_raising f x (c : nat) (P : state -> Prop) :
  (forall s, P s ->
     exists s',
       f x s = (Raise TypeError, s') /\
       P s' /\
       constructions (trace s') = (c + constructions (trace s))%nat /\
       concatenations (trace s') = concatenations (trace s)) ->
  forall k s, P s ->
    P (invoke_n f k x s) /\
    constructions (trace (invoke_n f k x s))
      = (k * c + constructions (trace s))%nat /\
    concatenations (trace (invoke_n f k x s)) = concatenations (trace s).
Proof.
  intros Hf. induction k as [|k IH]; intros s Hb; cbn [invoke_n].
  - auto.
  - destruct (Hf s Hb) as (s1 & Hs1 & Hb1 & Hc1 & Hk1).
    rewrite Hs1. cbn [snd].
    destruct (IH s1 Hb1) as (IHb & IHc & IHk).
    split; [assumption | split].
    + rewrite IHc, Hc1. lia.
    + now rewrite IHk.
Qed.

Lemma invoke_n_rejected f x (e : exn) (P : state -> Prop) :
  (forall s, P s -> f x s = (Raise e, s)) ->
  forall k s, P s -> invoke_n f k x s = s.
Proof.
  intros Hf. induction k as [|k IH]; intros s Hs; cbn [invoke_n].
  - reflexivity.
  - rewrite (Hf s Hs). cbn [snd]. now apply IH.
Qed.

Lemma v1_basic_unbuilt x s :
  built (self s) = false /\ 0 < num_filters (self s) ->
  exists s',
    inception_v1.BasicLayer.__call__ x s = (Raise TypeError, s') /\
    (built (self s') = false /\ 0 < num_filters (self s')) /\
    constructions (trace s') = (4 + constructions (trace s))%nat /\
    concatenations (trace s') = concatenations (trace s).
Proof. apply Layer___call___unbuilt_raising, v1_basic_build. Qed.

Lemma v2_basic_unbuilt x s :
  built (self s) = false /\ 0 < num_filters (self s) ->
  exists s',
    inception_v2.BasicLayer.__call__ x s = (Raise TypeError, s') /\
    (built (self s') = false /\ 0 < num_filters (self s')) /\
    constructions (trace s') = (8 + constructions (trace s))%nat /\
    concatenations (trace s') = concatenations (trace s).
Proof. apply Layer___call___unbuilt_raising, v2_basic_build. Qed.

Lemma v2_wide_unbuilt x s :
  built (self s) = false /\ 0 < num_filters (self s) ->
  exists s',
    inception_v2.WideLayer.__call__ x s = (Raise TypeError, s') /\
    (built (self s') = false /\ 0 < num_filters (self s')) /\
    constructions (trace s') = (10 + constructions (trace s))%nat /\
    concatenations (trace s') = concatenations (trace s).
Proof. apply Layer___call___unbuilt_raising, v2_wide_build. Qed.

Lemma v2_basic_rejected x s :
  built (self s) = false /\ num_filters (self s) <= 0 ->
  inception_v2.BasicLayer.__call__ x s = (Raise ValueError, s).
Proof. apply Layer___call___rejected, v2_basic_build_rejects. Qed.

Lemma v2_deep_rejected x s :
  built (self s) = false /\ num_filters (self s) <= 0 ->
  inception_v2.DeepLayer.__call__ x s = (Raise ValueError, s).
Proof. apply Layer___call___rejected, v2_deep_build_rejects. Qed.

Lemma v2_wide_rejected x s :
  built (self s) = false /\ num_filters (self s) <= 0 ->
  inception_v2.WideLayer.__call__ x s = (Raise ValueError, s).
Proof. apply Layer___call___rejected, v2_wide_build_rejects. Qed.

(** ** Symbolic execution of [call] *)

(** One statement [out <- self.n(x)] whose layer has stride 1 and "same"
    padding. *)
Ltac run_layer :=
  erewrite bind_Ok;
  [| erewrite call_attr_layer by (vm_compute; reflexivity);
     first [ eapply apply_Conv2D_same | eapply apply_MaxPool2D_same ];
     first [ reflexivity | eassumption ] ].

(** The first invocation of a block whose [build] raises. *)
Ltac first_call_raises init :=
  erewrite Layer___call___build_raises;
  [| reflexivity | unfold init; run_python; reflexivity ].

(** The first invocation of a block whose [build] returns. *)
Ltac first_call_builds init :=
  erewrite Layer___call___build_returns;
  [| reflexivity | unfold init; run_python; reflexivity ].

Lemma v1_basic_first_call a nm x n tr :
  inception_v1.BasicLayer.__call__ x
    (State (inception_v1.BasicLayer.__init__ a nm) n tr)
  = (Raise TypeError,
     State
       {| name := if truthy nm then nm else None; built := false;
          num_filters := 64; act := a; strides := 1; padding := same;
          dict :=
            <["maxpool_block" := VLayer (MaxPool2D_layer (3 + n) (3, 3) 1 same)]>
              (<["conv_block_c" :=
                   VLayer (Conv2D_layer (2 + n) 64 (5, 5) a 1 same)]>
                 (<["conv_block_b" :=
                      VLayer (Conv2D_layer (1 + n) 64 (3, 3) a 1 same)]>
                    (<["conv_block_a" :=
                         VLayer (Conv2D_layer n 64 (1, 1) a 1 same)]> ∅))) |}
       (4 + n)
       ([Constructed (MaxPool2D_layer (3 + n) (3, 3) 1 same);
         Constructed (Conv2D_layer (2 + n) 64 (5, 5) a 1 same);
         Constructed (Conv2D_layer (1 + n) 64 (3, 3) a 1 same);
         Constructed (Conv2D_layer n 64 (1, 1) a 1 same)] ++ tr)).
Proof.
  unfold inception_v1.BasicLayer.__call__.
  first_call_raises inception_v1.BasicLayer.__init__.
  reflexivity.
Qed.

Lemma v1_basic_branches a nm x b h w c n tr :
  shape x = [b; h; w; c] -> 0 < b -> 0 < h -> 0 < w -> 0 < c ->
  let s1 :=
    snd (inception_v1.BasicLayer.__call__ x
           (State (inception_v1.BasicLayer.__init__ a nm) n tr)) in
  let conv_block_a := Conv2D_layer n 64 (1, 1) a 1 same in
  let conv_block_b := Conv2D_layer (1 + n) 64 (3, 3) a 1 same in
  let maxpool_block := MaxPool2D_layer (3 + n) (3, 3) 1 same in
  let out l f := Tensor [b; h; w; f] (Apply l (content x)) in
  inception_v1.BasicLayer.call_branches x s1
  = (Ok [out conv_block_a 64; out conv_block_b 64; out conv_block_a 64;
         out maxpool_block c],
     State (self s1) (next_uid s1)
       ([Called maxpool_block x; Called conv_block_a x;
         Called conv_block_b x; Called conv_block_a x] ++ trace s1)).
Proof.
  intros Hx Hb Hh Hw Hc. cbv zeta.
  unfold inception_v1.BasicLayer.__call__.
  first_call_raises inception_v1.BasicLayer.__init__.
  cbn [snd self next_uid trace].
  unfold inception_v1.BasicLayer.call_branches.
  do 4 run_layer.
  reflexivity.
Qed.

(** * The claims *)

(** ** Basic Block (V1): the channels of the concatenation *)

(** C2, as amended.  For every input of shape (batch, H, W, C) with positive
    dimensions, the four branch outputs that [call] computes on the
    sub-layers created by [build] have 64, 64, 64 and C channels, so their
    channel-axis concatenation has shape (batch, H, W, 192 + C): the max-pool
    branch keeps the C input channels. *)
Theorem v1_basic_concatenation_has_192_plus_C_channels a nm x b h w c n tr :
  shape x = [b; h; w; c] -> 0 < b -> 0 < h -> 0 < w -> 0 < c ->
  let s1 :=
    snd (inception_v1.BasicLayer.__call__ x
           (State (inception_v1.BasicLayer.__init__ a nm) n tr)) in
  (exists outs s2,
     inception_v1.BasicLayer.call_branches x s1 = (Ok outs, s2) /\
     map shape outs
     = [[b; h; w; 64]; [b; h; w; 64]; [b; h; w; 64]; [b; h; w; c]]) /\
  result_shape
    (fst (concat_branches inception_v1.BasicLayer.call_branches x s1))
  = Some [b; h; w; 192 + c].
Proof.
  intros Hx Hb Hh Hw Hc s1.
  pose proof (v1_basic_branches a nm x b h w c n tr Hx Hb Hh Hw Hc) as Hbr.
  cbv zeta in Hbr. fold s1 in Hbr. split.
  - eexists _, _. split; [exact Hbr | reflexivity].
  - unfold concat_branches. erewrite bind_Ok by exact Hbr.
    erewrite concatenate_channels with (cs := [_; _]) by reflexivity.
    cbn [fst result_shape shape fold_left].
    now replace (64 + 64 + 64 + c) with (192 + c) by lia.
Qed.

Lemma v1_basic_concatenation_1_32_32_3 :
  result_shape
    (fst (concat_branches inception_v1.BasicLayer.call_branches x_1_32_32_3
            (snd (inception_v1.BasicLayer.__call__ x_1_32_32_3
                    (State (inception_v1.BasicLayer.__init__ relu None)
                       0 [])))))
  = Some [1; 32; 32; 192 + 3].
Proof.
  apply (v1_basic_concatenation_has_192_plus_C_channels
           relu None x_1_32_32_3 1 32 32 3 0%nat []);
    [reflexivity | lia | lia | lia | lia].
Defined.

(** C2, as stated, fails on the scenario of the spec: the invocation on an
    input of shape (1, 32, 32, 3) raises [TypeError] instead of returning a
    tensor, and the concatenation of the four branch outputs has 195
    channels, not 256. *)
Lemma v1_basic_1_32_32_3_is_not_256_channels :
  fst (inception_v1.BasicLayer.__call__ x_1_32_32_3
         (State (inception_v1.BasicLayer.__init__ relu None) 0 []))
  = Raise TypeError /\
  result_shape
    (fst (concat_branches inception_v1.BasicLayer.call_branches x_1_32_32_3
            (snd (inception_v1.BasicLayer.__call__ x_1_32_32_3
                    (State (inception_v1.BasicLayer.__init__ relu None)
                       0 [])))))
  = Some [1; 32; 32; 195].
Proof. split; vm_compute; reflexivity. Qed.

(** ** Basic Block (V1): the third branch *)



(** ** Basic Block (V1): the forward pass on the scenario of the spec *)

(** C1.  The code evaluated on a block with the default activation and an
    input of shape (1, 32, 32, 3): invoking the block raises [TypeError] in
    [build]; [build] has by then bound [conv_block_c] to a 5x5 convolution;
    [call] on the attributes so created applies the 1x1 layer, the 3x3 layer,
    the 1x1 layer again and the max-pool, so the list it prepares is
    [1x1, 3x3, 1x1, pool], and then raises [AttributeError] instead of
    concatenating. *)
Theorem v1_basic_forward_on_1_32_32_3 :
  let s0 := State (inception_v1.BasicLayer.__init__ relu None) 0 [] in
  let s1 := snd (inception_v1.BasicLayer.__call__ x_1_32_32_3 s0) in
  let conv_1x1 := Conv2D_layer 0 64 (1, 1) relu 1 same in
  let conv_3x3 := Conv2D_layer 1 64 (3, 3) relu 1 same in
  let conv_5x5 := Conv2D_layer 2 64 (5, 5) relu 1 same in
  let pool_3x3 := MaxPool2D_layer 3 (3, 3) 1 same in
  fst (inception_v1.BasicLayer.__call__ x_1_32_32_3 s0) = Raise TypeError /\
  dict (self s1) !! "conv_block_c" = Some (VLayer conv_5x5) /\
  fst (inception_v1.BasicLayer.call_branches x_1_32_32_3 s1)
  = Ok [Tensor [1; 32; 32; 64] (Apply conv_1x1 (Input "x"));
        Tensor [1; 32; 32; 64] (Apply conv_3x3 (Input "x"));
        Tensor [1; 32; 32; 64] (Apply conv_1x1 (Input "x"));
        Tensor [1; 32; 32; 3] (Apply pool_3x3 (Input "x"))] /\
  called_layers (trace (snd (inception_v1.BasicLayer.call x_1_32_32_3 s1)))
  = [pool_3x3; conv_1x1; conv_3x3; conv_1x1] /\
  fst (inception_v1.BasicLayer.call x_1_32_32_3 s1) = Raise AttributeError.
Proof.
  cbv zeta. do 4 (split; [vm_compute; reflexivity |]).
  vm_compute. reflexivity.
Qed.

(** ** Wide Block (V2): the forward pass on the scenario of the spec *)

(** C3.  The code evaluated on a block with the default arguments
    (28 filters) and an input of shape (1, 32, 32, 3): invoking the block
    raises [TypeError] in [build]; [call] on the attributes so created
    prepares the six-element list [A, B1, B2, C1, C1, D] after having
    applied all ten sub-layers, the 3x1 sibling of C1 included; the
    channel-axis concatenation of that list would have 168 channels, but
    [call] raises [AttributeError] instead of concatenating. *)
Theorem v2_wide_forward_on_1_32_32_3 :
  let s0 := State (inception_v2.WideLayer.__init__ 28 relu None) 0 [] in
  let s1 := snd (inception_v2.WideLayer.__call__ x_1_32_32_3 s0) in
  let conv (uid : nat) k := Conv2D_layer uid 28 k relu 1 same in
  let pool := MaxPool2D_layer 9 (3, 3) 1 same in
  let x := Input "x" in
  let out e := Tensor [1; 32; 32; 28] e in
  let A := out (Apply (conv 0%nat (1, 1)) x) in
  let B1 := out (Apply (conv 2%nat (1, 3)) (Apply (conv 1%nat (1, 1)) x)) in
  let B2 := out (Apply (conv 3%nat (3, 1)) (Apply (conv 1%nat (1, 1)) x)) in
  let C1 :=
    out (Apply (conv 6%nat (1, 3))
           (Apply (conv 5%nat (3, 3)) (Apply (conv 4%nat (1, 1)) x))) in
  let D := out (Apply (conv 8%nat (1, 1)) (Apply pool x)) in
  fst (inception_v2.WideLayer.__call__ x_1_32_32_3 s0) = Raise TypeError /\
  fst (inception_v2.WideLayer.call_branches x_1_32_32_3 s1)
  = Ok [A; B1; B2; C1; C1; D] /\
  called_layers
    (trace (snd (inception_v2.WideLayer.call_branches x_1_32_32_3 s1)))
  = [conv 8%nat (1, 1); pool; conv 7%nat (3, 1); conv 6%nat (1, 3);
     conv 5%nat (3, 3); conv 4%nat (1, 1); conv 3%nat (3, 1);
     conv 2%nat (1, 3); conv 1%nat (1, 1); conv 0%nat (1, 1)] /\
  result_channels
    (fst (concat_branches inception_v2.WideLayer.call_branches
            x_1_32_32_3 s1))
  = Some 168 /\
  fst (inception_v2.WideLayer.call x_1_32_32_3 s1) = Raise AttributeError.
Proof.
  cbv zeta. do 4 (split; [vm_compute; reflexivity |]).
  vm_compute. reflexivity.
Qed.

(** ** Reduction Block (V1): the forward pass on the scenario of the spec *)

(** C5.  The code evaluated on a block with the default activation and an
    input of shape (1, 32, 32, 3): the class has no base class, so a named
    instance cannot be constructed and an instance cannot be invoked;
    [build], run by hand, raises [TypeError] at its last line; [call] on the
    attributes so created prepares [A, B, C, D] with A = 1x1(x),
    B = 3x3(1x1(x)), C = 5x5(1x1(x)) and D = 1x1(pool(x)), whose
    concatenation would have 256 channels, but raises [AttributeError]
    instead of concatenating. *)
Theorem v1_reduction_forward_on_1_32_32_3 :
  let conv (uid : nat) k := Conv2D_layer uid 64 k relu 1 same in
  let pool := MaxPool2D_layer 6 (3, 3) 1 same in
  let x := Input "x" in
  let out e := Tensor [1; 32; 32; 64] e in
  let A := out (Apply (conv 0%nat (1, 1)) x) in
  let B := out (Apply (conv 4%nat (3, 3)) (Apply (conv 1%nat (1, 1)) x)) in
  let C := out (Apply (conv 5%nat (5, 5)) (Apply (conv 2%nat (1, 1)) x)) in
  let D := out (Apply (conv 3%nat (1, 1)) (Apply pool x)) in
  inception_v1.ReductionLayer.__init__ relu (Some "reduction")
  = Raise TypeError /\
  exists o,
    inception_v1.ReductionLayer.__init__ relu None = Ok o /\
    let s0 := State o 0 [] in
    let s1 := snd (inception_v1.ReductionLayer.build [1; 32; 32; 3] s0) in
    fst (inception_v1.ReductionLayer.__call__ x_1_32_32_3 s0)
    = Raise TypeError /\
    fst (inception_v1.ReductionLayer.build [1; 32; 32; 3] s0)
    = Raise TypeError /\
    fst (inception_v1.ReductionLayer.call_branches x_1_32_32_3 s1)
    = Ok [A; B; C; D] /\
    result_channels
      (fst (concat_branches inception_v1.ReductionLayer.call_branches
              x_1_32_32_3 s1))
    = Some 256 /\
    fst (inception_v1.ReductionLayer.call x_1_32_32_3 s1)
    = Raise AttributeError.
Proof.
  cbv zeta. split; [reflexivity |]. eexists. split; [reflexivity |].
  repeat (split; [vm_compute; reflexivity |]). vm_compute. reflexivity.
Qed.

(** ** Deep Block (V2) *)

Lemma v2_deep_first_call nf a nm x b h w c n tr :
  shape x = [b; h; w; c] -> 0 < b -> 0 < h -> 0 < w -> 0 < c -> 0 < nf ->
  let conv (i : nat) k := Conv2D_layer (i + n) nf k a 1 same in
  let pool := MaxPool2D_layer (10 + n) (3, 3) 1 same in
  let A := Apply (conv 0%nat (1, 1)) (content x) in
  let B :=
    Apply (conv 3%nat (3, 1))
      (Apply (conv 2%nat (1, 3)) (Apply (conv 1%nat (1, 1)) (content x))) in
  let C :=
    Apply (conv 8%nat (3, 1))
      (Apply (conv 7%nat (1, 3))
         (Apply (conv 6%nat (3, 1))
            (Apply (conv 5%nat (1, 3))
               (Apply (conv 4%nat (1, 1)) (content x))))) in
  let D := Apply (conv 9%nat (1, 1)) (Apply pool (content x)) in
  exists s',
    inception_v2.DeepLayer.__call__ x
      (State (inception_v2.DeepLayer.__init__ nf a nm) n tr)
    = (Ok (Tensor [b; h; w; 4 * nf] (Concat (-1) [A; B; C; D])), s') /\
    built (self s') = true /\
    constructions (trace s') = (11 + constructions tr)%nat /\
    concatenations (trace s') = (1 + concatenations tr)%nat /\
    hd_error (trace s')
    = Some (Concatenated (map (Tensor [b; h; w; nf]) [A; B; C; D]) (-1)).
Proof.
  intros Hx Hb Hh Hw Hc Hf. cbv zeta.
  unfold inception_v2.DeepLayer.__call__.
  first_call_builds inception_v2.DeepLayer.__init__.
  unfold inception_v2.DeepLayer.call, inception_v2.DeepLayer.call_branches.
  erewrite bind_Ok; [| do 11 run_layer; reflexivity ].
  erewrite bind_Ok;
    [| eapply concatenate_channels with (cs := [_; _]); reflexivity ].
  cbn [fold_left map content].
  replace (nf + nf + nf + nf) with (4 * nf) by lia.
  eexists. split; [reflexivity |].
  split; [reflexivity |]. split; [reflexivity |]. split; reflexivity.
Qed.

(** C6.  For every input of shape (batch, H, W, C) with positive dimensions
    and every positive filter count, invoking a fresh Deep Block returns the
    channel-axis concatenation [A, B, C, D] where A is the direct 1x1
    convolution of the input, B is 1x1 then 1x3 then 3x1, C is 1x1 then 1x3,
    3x1, 1x3, 3x1, and D is the 3x3 max-pool then 1x1; the result has
    4 * num_filters channels, 112 with the default 28. *)
Theorem v2_deep_forward_concatenates_A_B_C_D nf a nm x b h w c n tr :
  shape x = [b; h; w; c] -> 0 < b -> 0 < h -> 0 < w -> 0 < c -> 0 < nf ->
  let conv (i : nat) k := Conv2D_layer (i + n) nf k a 1 same in
  let pool := MaxPool2D_layer (10 + n) (3, 3) 1 same in
  let A := Apply (conv 0%nat (1, 1)) (content x) in
  let B :=
    Apply (conv 3%nat (3, 1))
      (Apply (conv 2%nat (1, 3)) (Apply (conv 1%nat (1, 1)) (content x))) in
  let C :=
    Apply (conv 8%nat (3, 1))
      (Apply (conv 7%nat (1, 3))
         (Apply (conv 6%nat (3, 1))
            (Apply (conv 5%nat (1, 3))
               (Apply (conv 4%nat (1, 1)) (content x))))) in
  let D := Apply (conv 9%nat (1, 1)) (Apply pool (content x)) in
  fst (inception_v2.DeepLayer.__call__ x
         (State (inception_v2.DeepLayer.__init__ nf a nm) n tr))
  = Ok (Tensor [b; h; w; 4 * nf] (Concat (-1) [A; B; C; D])) /\
  result_shape
    (fst (inception_v2.DeepLayer.__call__ x
            (State (inception_v2.DeepLayer.__init__ 28 a nm) n tr)))
  = Some [b; h; w; 112].
Proof.
  intros Hx Hb Hh Hw Hc Hf. cbv zeta. split.
  - destruct (v2_deep_first_call nf a nm x b h w c n tr Hx Hb Hh Hw Hc Hf)
      as (s' & Hs' & _).
    now rewrite Hs'.
  - destruct (v2_deep_first_call 28 a nm x b h w c n tr Hx Hb Hh Hw Hc)
      as (s' & Hs' & _); [lia |].
    now rewrite Hs'.
Qed.

Lemma v2_deep_forward_on_1_32_32_3 :
  result_shape
    (fst (inception_v2.DeepLayer.__call__ x_1_32_32_3
            (State (inception_v2.DeepLayer.__init__ 28 relu None) 0 [])))
  = Some [1; 32; 32; 112].
Proof.
  apply (v2_deep_forward_concatenates_A_B_C_D
           28 relu None x_1_32_32_3 1 32 32 3 0%nat []);
    [reflexivity | lia | lia | lia | lia | lia].
Defined.

Lemma invoke_n_built build call x :
  reads_self_only (call x) ->
  forall k s, built (self s) = true ->
    self (invoke_n (Layer___call__ build call) k x s) = self s /\
    constructions (trace (invoke_n (Layer___call__ build call) k x s))
    = constructions (trace s).
Proof.
  intros Hcall. induction k as [|k IH]; intros s Hb; cbn [invoke_n].
  - auto.
  - rewrite (Layer___call___built build call x s Hb).
    destruct (Hcall s) as (Hself & _ & Hcons & _).
    destruct (IH (snd (call x s))) as (IHself & IHcons);
      [now rewrite Hself |].
    split; congruence.
Qed.

Lemma v2_deep_unbuilt x s :
  built (self s) = false -> 0 < num_filters (self s) ->
  built (self (snd (inception_v2.DeepLayer.__call__ x s))) = true /\
  constructions (trace (snd (inception_v2.DeepLayer.__call__ x s)))
  = (11 + constructions (trace s))%nat.
Proof.
  intros Hb Hf.
  destruct (v2_deep_build (shape x) s Hf)
    as ([o1 n1 tr1] & Hs1 & _ & _ & Hc1 & _).
  unfold inception_v2.DeepLayer.__call__.
  rewrite (Layer___call___build_returns _ _ x s _ _ _ Hb Hs1).
  destruct (v2_deep_call_pure x (State (set_built true o1) n1 tr1))
    as (Hself & _ & Hcons & _).
  rewrite Hself, Hcons. auto.
Qed.

Lemma invoke_n_S f k x s :
  invoke_n f (S k) x s = invoke_n f k x (snd (f x s)).
Proof. reflexivity. Qed.

(** The sub-layers of a Deep Block with a positive filter count are
    constructed by the first invocation, which marks the instance built, and
    by no later one, and the attributes bound by then stay as they are,
    whatever the input.  With a filter count that is not positive, every
    invocation raises [ValueError] at the first convolution of [build] and
    leaves the instance as it was: unbuilt, with no sub-layer. *)
Theorem v2_deep_builds_once nf a nm x n tr k :
  let s0 := State (inception_v2.DeepLayer.__init__ nf a nm) n tr in
  let s1 := snd (inception_v2.DeepLayer.__call__ x s0) in
  let s_k := invoke_n inception_v2.DeepLayer.__call__ (S k) x s0 in
  (0 < nf ->
   built (self s1) = true /\
   constructions (trace s1) = (11 + constructions tr)%nat /\
   constructions (trace s_k) = constructions (trace s1) /\
   self s_k = self s1) /\
  (nf <= 0 ->
   fst (inception_v2.DeepLayer.__call__ x s0) = Raise ValueError /\
   s_k = s0 /\
   fst (inception_v2.DeepLayer.__call__ x s_k) = Raise ValueError).
Proof.
  cbv zeta. split; intros Hf.
  - rewrite invoke_n_S.
    destruct (v2_deep_unbuilt x
                (State (inception_v2.DeepLayer.__init__ nf a nm) n tr)
                eq_refl Hf) as (Hb & Hc).
    split; [exact Hb |]. split; [exact Hc |].
    destruct (invoke_n_built inception_v2.DeepLayer.build
                inception_v2.DeepLayer.call x (v2_deep_call_pure x) k _ Hb)
      as (Hself & Hcons).
    split; [exact Hcons | exact Hself].
  - rewrite (invoke_n_rejected inception_v2.DeepLayer.__call__ x
               ValueError _ (v2_deep_rejected x) (S k)
               (State (inception_v2.DeepLayer.__init__ nf a nm) n tr)
               (conj eq_refl Hf)).
    rewrite (v2_deep_rejected x
               (State (inception_v2.DeepLayer.__init__ nf a nm) n tr)
               (conj eq_refl Hf)).
    split; [reflexivity |]. split; reflexivity.
Qed.

Lemma v2_deep_builds_once_on_a_rank_2_input :
  constructions
    (trace (invoke_n inception_v2.DeepLayer.__call__ 3
              (Tensor [7; 5] (Input "y"))
              (State (inception_v2.DeepLayer.__init__ 28 relu None) 0 [])))
  = constructions
      (trace (snd (inception_v2.DeepLayer.__call__
                     (Tensor [7; 5] (Input "y"))
                     (State (inception_v2.DeepLayer.__init__ 28 relu None)
                        0 [])))).
Proof.
  apply (proj1 (v2_deep_builds_once 28 relu None
                  (Tensor [7; 5] (Input "y")) 0%nat [] 2)).
  lia.
Defined.

(** ** The build step of the four other classes *)



(** ** Shapes of the outputs *)

Lemma invoke_n_O f x s : invoke_n f 0 x s = s.
Proof. reflexivity. Qed.

(** C7.  The code evaluated on an input of shape (1, 32, 32, 3) and blocks
    with the default arguments.  Every sub-layer that any [build] constructs
    has stride 1 and "same" padding, and a Deep Block returns a tensor of
    shape (1, 32, 32, 112); but invoking a Basic Block (V1), a Basic Block
    (V2) or a Wide Block raises [TypeError] in [build], and a Reduction Block
    cannot be invoked, so none of them returns a tensor of any shape. *)
Theorem forward_shapes_on_1_32_32_3 :
  (forall a nm shp n,
     forallb stride1_same
       (constructed_layers
          (trace (snd (inception_v1.BasicLayer.build shp
                         (State (inception_v1.BasicLayer.__init__ a nm)
                            n [])))))
     = true) /\
  (forall nf a nm shp n,
     forallb stride1_same
       (constructed_layers
          (trace (snd (inception_v2.BasicLayer.build shp
                         (State (inception_v2.BasicLayer.__init__ nf a nm)
                            n [])))))
     = true) /\
  (forall nf a nm shp n,
     forallb stride1_same
       (constructed_layers
          (trace (snd (inception_v2.DeepLayer.build shp
                         (State (inception_v2.DeepLayer.__init__ nf a nm)
                            n [])))))
     = true) /\
  (forall nf a nm shp n,
     forallb stride1_same
       (constructed_layers
          (trace (snd (inception_v2.WideLayer.build shp
                         (State (inception_v2.WideLayer.__init__ nf a nm)
                            n [])))))
     = true) /\
  result_shape
    (fst (inception_v2.DeepLayer.__call__ x_1_32_32_3
            (State (inception_v2.DeepLayer.__init__ 28 relu None) 0 [])))
  = Some [1; 32; 32; 112] /\
  fst (inception_v1.BasicLayer.__call__ x_1_32_32_3
         (State (inception_v1.BasicLayer.__init__ relu None) 0 []))
  = Raise TypeError /\
  fst (inception_v2.BasicLayer.__call__ x_1_32_32_3
         (State (inception_v2.BasicLayer.__init__ 28 relu None) 0 []))
  = Raise TypeError /\
  fst (inception_v2.WideLayer.__call__ x_1_32_32_3
         (State (inception_v2.WideLayer.__init__ 28 relu None) 0 []))
  = Raise TypeError /\
  exists o,
    inception_v1.ReductionLayer.__init__ relu None = Ok o /\
    forallb stride1_same
      (constructed_layers
         (trace (snd (inception_v1.ReductionLayer.build [1; 32; 32; 3]
                        (State o 0 [])))))
    = true /\
    fst (inception_v1.ReductionLayer.__call__ x_1_32_32_3 (State o 0 []))
    = Raise TypeError.
Proof.
  split;
    [intros; unfold inception_v1.BasicLayer.__init__; run_python;
     reflexivity |].
  split;
    [intros nf a nm shp n; unfold inception_v2.BasicLayer.__init__;
     destruct (Z.le_gt_cases nf 0) as [Hf|Hf];
     [run_python_rejected | run_python]; reflexivity |].
  split;
    [intros nf a nm shp n; unfold inception_v2.DeepLayer.__init__;
     destruct (Z.le_gt_cases nf 0) as [Hf|Hf];
     [run_python_rejected | run_python]; reflexivity |].
  split;
    [intros nf a nm shp n; unfold inception_v2.WideLayer.__init__;
     destruct (Z.le_gt_cases nf 0) as [Hf|Hf];
     [run_python_rejected | run_python]; reflexivity |].
  do 4 (split; [vm_compute; reflexivity |]).
  eexists. split; [reflexivity |].
  split; vm_compute; reflexivity.
Qed.

(** ** Invoking a block twice *)

(** C8.  The code evaluated on one Basic Block (V1) with the default
    activation, invoked twice on the same input of shape (1, 32, 32, 3):
    both invocations raise [TypeError], so neither yields an output, and the
    sub-layers are not fixed between them: the second invocation rebinds
    [conv_block_a] to a new layer, so [call] run on the instance computes
    other branch outputs after the second invocation than after the first.
    One Deep Block invoked twice on that input returns the same tensor both
    times. *)
Theorem v1_basic_forward_twice_on_1_32_32_3 :
  let s0 := State (inception_v1.BasicLayer.__init__ relu None) 0 [] in
  let s1 := snd (inception_v1.BasicLayer.__call__ x_1_32_32_3 s0) in
  let s2 := snd (inception_v1.BasicLayer.__call__ x_1_32_32_3 s1) in
  let conv (uid : nat) k := Conv2D_layer uid 64 k relu 1 same in
  let pool (uid : nat) := MaxPool2D_layer uid (3, 3) 1 same in
  let out l f := Tensor [1; 32; 32; f] (Apply l (Input "x")) in
  let d0 := State (inception_v2.DeepLayer.__init__ 28 relu None) 0 [] in
  let d1 := snd (inception_v2.DeepLayer.__call__ x_1_32_32_3 d0) in
  fst (inception_v1.BasicLayer.__call__ x_1_32_32_3 s0) = Raise TypeError /\
  fst (inception_v1.BasicLayer.__call__ x_1_32_32_3 s1) = Raise TypeError /\
  dict (self s1) !! "conv_block_a" = Some (VLayer (conv 0%nat (1, 1))) /\
  dict (self s2) !! "conv_block_a" = Some (VLayer (conv 4%nat (1, 1))) /\
  fst (inception_v1.BasicLayer.call_branches x_1_32_32_3 s1)
  = Ok [out (conv 0%nat (1, 1)) 64; out (conv 1%nat (3, 3)) 64;
        out (conv 0%nat (1, 1)) 64; out (pool 3%nat) 3] /\
  fst (inception_v1.BasicLayer.call_branches x_1_32_32_3 s2)
  = Ok [out (conv 4%nat (1, 1)) 64; out (conv 5%nat (3, 3)) 64;
        out (conv 4%nat (1, 1)) 64; out (pool 7%nat) 3] /\
  constructions (trace s1) = 4%nat /\
  constructions (trace s2) = 8%nat /\
  (exists t,
     fst (inception_v2.DeepLayer.__call__ x_1_32_32_3 d0) = Ok t /\
     fst (inception_v2.DeepLayer.__call__ x_1_32_32_3 d1) = Ok t /\
     shape t = [1; 32; 32; 112]).
Proof.
  cbv zeta. do 8 (split; [vm_compute; reflexivity |]).
  eexists. split; [vm_compute; reflexivity |].
  split; vm_compute; reflexivity.
Qed.

(** ** How often the sub-layers are constructed *)

(** C9.  The code evaluated on a Basic Block (V1): [build] raises before the
    instance is marked built, so every invocation runs [build] again and
    constructs four new sub-layers.  After [k] invocations [4 * k] sub-layers
    have been constructed and the instance is still not built; the second
    invocation rebinds [conv_block_a] to a layer other than the one the
    first invocation had bound. *)
Theorem v1_basic_rebuilds_on_every_invocation a nm x n tr k :
  let s0 := State (inception_v1.BasicLayer.__init__ a nm) n tr in
  let s_k := invoke_n inception_v1.BasicLayer.__call__ k x s0 in
  constructions (trace s_k) = (k * 4 + constructions tr)%nat /\
  built (self s_k) = false /\
  dict (self (invoke_n inception_v1.BasicLayer.__call__ 1 x s0))
    !! "conv_block_a"
  = Some (VLayer (Conv2D_layer n 64 (1, 1) a 1 same)) /\
  dict (self (invoke_n inception_v1.BasicLayer.__call__ 2 x s0))
    !! "conv_block_a"
  = Some (VLayer (Conv2D_layer (4 + n) 64 (1, 1) a 1 same)).
Proof.
  cbv zeta.
  destruct (invoke_n_raising inception_v1.BasicLayer.__call__ x 4 _
              (v1_basic_unbuilt x) k
              (State (inception_v1.BasicLayer.__init__ a nm) n tr)
              (conj eq_refl eq_refl))
    as ((Hb & _) & Hc & _).
  split; [exact Hc |]. split; [exact Hb |].
  rewrite !invoke_n_S, !invoke_n_O, v1_basic_first_call. cbn [snd].
  split; [vm_compute; reflexivity |].
  unfold inception_v1.BasicLayer.__call__.
  erewrite Layer___call___build_raises;
    [| reflexivity | run_python; reflexivity ].
  vm_compute. reflexivity.
Qed.

(** ** The wiring of the Wide and Reduction Blocks *)

(** On the sub-layers that [build] creates, [call] of a Wide Block prepares
    the list [A, B1, B2, C1, C1, D] for every image batch: the 1x3 output of
    branch C twice, its 3x1 sibling not at all.  The channel-axis
    concatenation of that list has 6 * num_filters channels. *)
Theorem v2_wide_branches_A_B1_B2_C1_C1_D nf a nm x b h w c n tr :
  shape x = [b; h; w; c] -> 0 < b -> 0 < h -> 0 < w -> 0 < c -> 0 < nf ->
  let s1 :=
    snd (inception_v2.WideLayer.__call__ x
           (State (inception_v2.WideLayer.__init__ nf a nm) n tr)) in
  let conv (i : nat) k := Conv2D_layer (i + n) nf k a 1 same in
  let pool := MaxPool2D_layer (9 + n) (3, 3) 1 same in
  let out e := Tensor [b; h; w; nf] e in
  let A := out (Apply (conv 0%nat (1, 1)) (content x)) in
  let B1 :=
    out (Apply (conv 2%nat (1, 3)) (Apply (conv 1%nat (1, 1)) (content x))) in
  let B2 :=
    out (Apply (conv 3%nat (3, 1)) (Apply (conv 1%nat (1, 1)) (content x))) in
  let C1 :=
    out (Apply (conv 6%nat (1, 3))
           (Apply (conv 5%nat (3, 3))
              (Apply (conv 4%nat (1, 1)) (content x)))) in
  let D := out (Apply (conv 8%nat (1, 1)) (Apply pool (content x))) in
  fst (inception_v2.WideLayer.call_branches x s1)
  = Ok [A; B1; B2; C1; C1; D] /\
  result_shape
    (fst (concat_branches inception_v2.WideLayer.call_branches x s1))
  = Some [b; h; w; 6 * nf].
Proof.
  intros Hx Hb Hh Hw Hc Hf. cbv zeta.
  unfold inception_v2.WideLayer.__call__.
  first_call_raises inception_v2.WideLayer.__init__.
  cbn [snd]. unfold concat_branches, inception_v2.WideLayer.call_branches.
  split.
  - do 10 run_layer. reflexivity.
  - erewrite bind_Ok; [| do 10 run_layer; reflexivity ].
    erewrite concatenate_channels with (cs := [_; _; _; _]) by reflexivity.
    cbn [fst result_shape shape fold_left].
    now replace (nf + nf + nf + nf + nf + nf) with (6 * nf) by lia.
Qed.

Lemma v2_wide_branches_on_1_32_32_3 :
  result_shape
    (fst (concat_branches inception_v2.WideLayer.call_branches x_1_32_32_3
            (snd (inception_v2.WideLayer.__call__ x_1_32_32_3
                    (State (inception_v2.WideLayer.__init__ 28 relu None)
                       0 [])))))
  = Some [1; 32; 32; 6 * 28].
Proof.
  apply (v2_wide_branches_A_B1_B2_C1_C1_D
           28 relu None x_1_32_32_3 1 32 32 3 0%nat []);
    [reflexivity | lia | lia | lia | lia | lia].
Defined.

(** On the sub-layers that [build] creates, [call] of a Reduction Block
    prepares the list [A, B, C, D] for every image batch, with A = 1x1(x),
    B = 3x3(1x1(x)), C = 5x5(1x1(x)) and D = 1x1(pool(x)); the channel-axis
    concatenation of that list has 256 channels. *)
Theorem v1_reduction_branches_A_B_C_D a nm o x b h w c n tr shp :
  inception_v1.ReductionLayer.__init__ a nm = Ok o ->
  shape x = [b; h; w; c] -> 0 < b -> 0 < h -> 0 < w -> 0 < c ->
  let s1 := snd (inception_v1.ReductionLayer.build shp (State o n tr)) in
  let conv (i : nat) k := Conv2D_layer (i + n) 64 k a 1 same in
  let pool := MaxPool2D_layer (6 + n) (3, 3) 1 same in
  let out e := Tensor [b; h; w; 64] e in
  let A := out (Apply (conv 0%nat (1, 1)) (content x)) in
  let B :=
    out (Apply (conv 4%nat (3, 3)) (Apply (conv 1%nat (1, 1)) (content x))) in
  let C :=
    out (Apply (conv 5%nat (5, 5)) (Apply (conv 2%nat (1, 1)) (content x))) in
  let D := out (Apply (conv 3%nat (1, 1)) (Apply pool (content x))) in
  fst (inception_v1.ReductionLayer.call_branches x s1) = Ok [A; B; C; D] /\
  result_shape
    (fst (concat_branches inception_v1.ReductionLayer.call_branches x s1))
  = Some [b; h; w; 256].
Proof.
  intros Ho Hx Hb Hh Hw Hc. cbv zeta.
  unfold inception_v1.ReductionLayer.__init__ in Ho.
  destruct (truthy nm); [discriminate Ho |].
  injection Ho as <-.
  run_python. cbn [snd].
  unfold concat_branches, inception_v1.ReductionLayer.call_branches.
  split.
  - do 7 run_layer. reflexivity.
  - erewrite bind_Ok; [| do 7 run_layer; reflexivity ].
    erewrite concatenate_channels with (cs := [_; _]) by reflexivity.
    reflexivity.
Qed.

Lemma v1_reduction_branches_on_1_32_32_3 :
  result_shape
    (fst (concat_branches inception_v1.ReductionLayer.call_branches
            x_1_32_32_3
            (snd (inception_v1.ReductionLayer.build [1; 32; 32; 3]
                    (State
                       {| name := None; built := false; num_filters := 64;
                          act := relu; strides := 1; padding := same;
                          dict := ∅ |} 0 [])))))
  = Some [1; 32; 32; 256].
Proof.
  apply (v1_reduction_branches_A_B_C_D relu None _ x_1_32_32_3
           1 32 32 3 0%nat [] [1; 32; 32; 3]);
    [reflexivity | reflexivity | lia | lia | lia | lia].
Defined.

(** ** The wiring of the Basic Block (V2) *)

(** On the sub-layers that [build] creates, [call] of a Basic Block (V2)
    prepares the list [A, B, C, D] for every image batch, with A = 1x1(x),
    B = 3x3(1x1(x)), C = 3x3(3x3(1x1(x))) and D = 1x1(pool(x)); the
    channel-axis concatenation of that list has 4 * num_filters channels. *)
Theorem v2_basic_branches_A_B_C_D nf a nm x b h w c n tr :
  shape x = [b; h; w; c] -> 0 < b -> 0 < h -> 0 < w -> 0 < c -> 0 < nf ->
  let s1 :=
    snd (inception_v2.BasicLayer.__call__ x
           (State (inception_v2.BasicLayer.__init__ nf a nm) n tr)) in
  let conv (i : nat) k := Conv2D_layer (i + n) nf k a 1 same in
  let pool := MaxPool2D_layer (7 + n) (3, 3) 1 same in
  let out e := Tensor [b; h; w; nf] e in
  let A := out (Apply (conv 0%nat (1, 1)) (content x)) in
  let B :=
    out (Apply (conv 2%nat (3, 3)) (Apply (conv 1%nat (1, 1)) (content x))) in
  let C :=
    out (Apply (conv 5%nat (3, 3))
           (Apply (conv 4%nat (3, 3))
              (Apply (conv 3%nat (1, 1)) (content x)))) in
  let D := out (Apply (conv 6%nat (1, 1)) (Apply pool (content x))) in
  fst (inception_v2.BasicLayer.call_branches x s1) = Ok [A; B; C; D] /\
  result_shape
    (fst (concat_branches inception_v2.BasicLayer.call_branches x s1))
  = Some [b; h; w; 4 * nf].
Proof.
  intros Hx Hb Hh Hw Hc Hf. cbv zeta.
  unfold inception_v2.BasicLayer.__call__.
  first_call_raises inception_v2.BasicLayer.__init__.
  cbn [snd]. unfold concat_branches, inception_v2.BasicLayer.call_branches.
  split.
  - do 8 run_layer. reflexivity.
  - erewrite bind_Ok; [| do 8 run_layer; reflexivity ].
    erewrite concatenate_channels with (cs := [_; _]) by reflexivity.
    cbn [fst result_shape shape fold_left].
    now replace (nf + nf + nf + nf) with (4 * nf) by lia.
Qed.

Lemma v2_basic_branches_on_1_32_32_3 :
  result_shape
    (fst (concat_branches inception_v2.BasicLayer.call_branches x_1_32_32_3
            (snd (inception_v2.BasicLayer.__call__ x_1_32_32_3
                    (State (inception_v2.BasicLayer.__init__ 28 relu None)
                       0 [])))))
  = Some [1; 32; 32; 4 * 28].
Proof.
  apply (v2_basic_branches_A_B_C_D
           28 relu None x_1_32_32_3 1 32 32 3 0%nat []);
    [reflexivity | lia | lia | lia | lia | lia].
Defined.

(** ** Running [call] on an instance that was never built *)

(** For each of the five classes, [call] run on a freshly constructed
    instance (no [build] before it) raises [AttributeError] at its first
    statement, whatever the input, and leaves the state as it was: no
    sub-layer is applied and nothing is concatenated. *)
Theorem call_before_build_raises_AttributeError x n tr :
  (forall a nm,
     inception_v1.BasicLayer.call x
       (State (inception_v1.BasicLayer.__init__ a nm) n tr)
     = (Raise AttributeError,
        State (inception_v1.BasicLayer.__init__ a nm) n tr)) /\
  (forall a nm o,
     inception_v1.ReductionLayer.__init__ a nm = Ok o ->
     inception_v1.ReductionLayer.call x (State o n tr)
     = (Raise AttributeError, State o n tr)) /\
  (forall nf a nm,
     inception_v2.BasicLayer.call x
       (State (inception_v2.BasicLayer.__init__ nf a nm) n tr)
     = (Raise AttributeError,
        State (inception_v2.BasicLayer.__init__ nf a nm) n tr)) /\
  (forall nf a nm,
     inception_v2.DeepLayer.call x
       (State (inception_v2.DeepLayer.__init__ nf a nm) n tr)
     = (Raise AttributeError,
        State (inception_v2.DeepLayer.__init__ nf a nm) n tr)) /\
  (forall nf a nm,
     inception_v2.WideLayer.call x
       (State (inception_v2.WideLayer.__init__ nf a nm) n tr)
     = (Raise AttributeError,
        State (inception_v2.WideLayer.__init__ nf a nm) n tr)).
Proof.
  split; [intros; reflexivity |].
  split.
  { intros a nm o Ho. unfold inception_v1.ReductionLayer.__init__ in Ho.
    destruct (truthy nm); [discriminate Ho |].
    injection Ho as <-. reflexivity. }
  split; [intros; reflexivity |].
  split; intros; reflexivity.
Qed.

Lemma v1_reduction_call_before_build :
  fst (inception_v1.ReductionLayer.call x_1_32_32_3
         (State
            {| name := None; built := false; num_filters := 64;
               act := relu; strides := 1; padding := same; dict := ∅ |}
            0 []))
  = Raise AttributeError.
Proof.
  rewrite (proj1 (proj2 (call_before_build_raises_AttributeError
                           x_1_32_32_3 0%nat []))
             relu None _ eq_refl).
  reflexivity.
Defined.

(** ** A Deep Block whose first input has too low a rank *)

Lemma compute_output_shape_low_rank l shp :
  (length shp < 4)%nat -> compute_output_shape l shp = None.
Proof.
  intros Hlen.
  destruct l as [uid f [kh kw] a st p | uid [ph pw] st p];
    destruct shp as [|b [|h [|w [|c shp]]]]; try reflexivity;
    cbn [length] in Hlen; lia.
Qed.

Lemma apply_layer_low_rank l x s :
  (length (shape x) < 4)%nat -> apply_layer l x s = (Raise ValueError, s).
Proof.
  intros Hlen. unfold apply_layer.
  now rewrite compute_output_shape_low_rank.
Qed.

Lemma v2_deep_call_low_rank x o n tr l :
  dict o !! "conv_1a" = Some (VLayer l) ->
  (length (shape x) < 4)%nat ->
  inception_v2.DeepLayer.call x (State o n tr)
  = (Raise ValueError, State o n tr).
Proof.
  intros Hl Hlen.
  unfold inception_v2.DeepLayer.call, inception_v2.DeepLayer.call_branches.
  erewrite bind_Raise; [reflexivity |].
  erewrite bind_Raise; [reflexivity |].
  rewrite (call_attr_layer _ _ _ _ _ _ Hl).
  now apply apply_layer_low_rank.
Qed.

(** Invoking a fresh Deep Block on a tensor of rank below 4 raises
    [ValueError] at the first convolution, but [build] has run by then: the
    instance is marked built and its eleven sub-layers exist, none of them
    applied.  A later invocation on an image batch does not build again: it
    returns the concatenation [A, B, C, D] computed with those eleven
    sub-layers. *)
Theorem v2_deep_is_built_by_a_failed_first_call
    nf a nm x x2 b h w c n tr :
  (length (shape x) < 4)%nat ->
  shape x2 = [b; h; w; c] -> 0 < b -> 0 < h -> 0 < w -> 0 < c -> 0 < nf ->
  let r1 :=
    inception_v2.DeepLayer.__call__ x
      (State (inception_v2.DeepLayer.__init__ nf a nm) n tr) in
  let r2 := inception_v2.DeepLayer.__call__ x2 (snd r1) in
  let conv (i : nat) k := Conv2D_layer (i + n) nf k a 1 same in
  let pool := MaxPool2D_layer (10 + n) (3, 3) 1 same in
  let A := Apply (conv 0%nat (1, 1)) (content x2) in
  let B :=
    Apply (conv 3%nat (3, 1))
      (Apply (conv 2%nat (1, 3)) (Apply (conv 1%nat (1, 1)) (content x2))) in
  let C :=
    Apply (conv 8%nat (3, 1))
      (Apply (conv 7%nat (1, 3))
         (Apply (conv 6%nat (3, 1))
            (Apply (conv 5%nat (1, 3))
               (Apply (conv 4%nat (1, 1)) (content x2))))) in
  let D := Apply (conv 9%nat (1, 1)) (Apply pool (content x2)) in
  fst r1 = Raise ValueError /\
  built (self (snd r1)) = true /\
  constructions (trace (snd r1)) = (11 + constructions tr)%nat /\
  called_layers (trace (snd r1)) = called_layers tr /\
  fst r2 = Ok (Tensor [b; h; w; 4 * nf] (Concat (-1) [A; B; C; D])) /\
  constructions (trace (snd r2)) = (11 + constructions tr)%nat.
Proof.
  intros Hlen Hx Hb Hh Hw Hc Hf. cbv zeta.
  unfold inception_v2.DeepLayer.__call__.
  erewrite (Layer___call___build_returns _ _ x);
    [| reflexivity
     | unfold inception_v2.DeepLayer.__init__; run_python; reflexivity ].
  erewrite v2_deep_call_low_rank;
    [| vm_compute; reflexivity | assumption ].
  cbn [fst snd self trace].
  split; [reflexivity |]. split; [reflexivity |].
  split; [reflexivity |]. split; [reflexivity |].
  rewrite Layer___call___built by reflexivity.
  unfold inception_v2.DeepLayer.call, inception_v2.DeepLayer.call_branches.
  erewrite bind_Ok; [| do 11 run_layer; reflexivity ].
  erewrite bind_Ok;
    [| eapply concatenate_channels with (cs := [_; _]); reflexivity ].
  cbn [fold_left map content].
  replace (nf + nf + nf + nf) with (4 * nf) by lia.
  split; reflexivity.
Qed.

Lemma v2_deep_after_a_rank_3_input :
  result_shape
    (fst (inception_v2.DeepLayer.__call__ x_1_32_32_3
            (snd (inception_v2.DeepLayer.__call__
                    (Tensor [32; 32; 3] (Input "y"))
                    (State (inception_v2.DeepLayer.__init__ 28 relu None)
                       0 [])))))
  = Some [1; 32; 32; 4 * 28].
Proof.
  pose proof (v2_deep_is_built_by_a_failed_first_call
                28 relu None (Tensor [32; 32; 3] (Input "y")) x_1_32_32_3
                1 32 32 3 0%nat []) as H.
  cbv zeta in H.
  destruct H as (_ & _ & _ & _ & H & _);
    [cbn; lia | reflexivity | lia | lia | lia | lia | lia |].
  now rewrite H.
Defined.

(** ** A Deep Block whose first input has two batch dimensions *)

Lemma positive_dims_5 b1 b2 h w c :
  0 < b1 -> 0 < b2 -> 0 < h -> 0 < w -> 0 < c ->
  positive_dims [b1; b2; h; w; c] = true.
Proof.
  intros Hb1 Hb2 Hh Hw Hc. unfold positive_dims, forallb.
  apply Z.ltb_lt in Hb1, Hb2, Hh, Hw, Hc.
  now rewrite Hb1, Hb2, Hh, Hw, Hc.
Qed.

Lemma apply_Conv2D_same_rank_5 uid f k a x b1 b2 h w c o n tr :
  shape x = [b1; b2; h; w; c] ->
  0 < b1 -> 0 < b2 -> 0 < h -> 0 < w -> 0 < c -> 0 < f ->
  apply_layer (Conv2D_layer uid f k a 1 same) x (State o n tr)
  = (Ok (Tensor [b1; b2; h; w; f]
           (Apply (Conv2D_layer uid f k a 1 same) (content x))),
     State o n (Called (Conv2D_layer uid f k a 1 same) x :: tr)).
Proof.
  intros Hx Hb1 Hb2 Hh Hw Hc Hf. unfold apply_layer. rewrite Hx.
  destruct k as [kh kw].
  cbn [compute_output_shape conv2d_output_shape option_map layer_strides].
  rewrite !conv_output_length_same_1.
  rewrite !positive_dims_5 by assumption.
  reflexivity.
Qed.

Lemma apply_MaxPool2D_rank_5 uid k st p x b1 b2 h w c s :
  shape x = [b1; b2; h; w; c] ->
  apply_layer (MaxPool2D_layer uid k st p) x s = (Raise ValueError, s).
Proof.
  intros Hx. unfold apply_layer. rewrite Hx. now destruct k.
Qed.

(** One statement [out <- self.n(x)] whose layer is a convolution with
    stride 1 and "same" padding, on a tensor with two batch dimensions. *)
Ltac run_conv_rank_5 :=
  erewrite bind_Ok;
  [| erewrite call_attr_layer by (vm_compute; reflexivity);
     eapply apply_Conv2D_same_rank_5;
     first [ reflexivity | eassumption ] ].

(** Invoking a fresh Deep Block on a tensor of rank 5 (two batch dimensions
    before height, width and channels): the nine convolutions of branches A,
    B and C accept it and are applied, in the order of [call]; the max-pool
    of branch D accepts rank 4 only and raises [ValueError], so nothing is
    concatenated.  [build] has run by then: the instance is marked built and
    its eleven sub-layers exist. *)
Theorem v2_deep_on_a_rank_5_input nf a nm x b1 b2 h w c n tr :
  shape x = [b1; b2; h; w; c] ->
  0 < b1 -> 0 < b2 -> 0 < h -> 0 < w -> 0 < c -> 0 < nf ->
  let r :=
    inception_v2.DeepLayer.__call__ x
      (State (inception_v2.DeepLayer.__init__ nf a nm) n tr) in
  let conv (i : nat) k := Conv2D_layer (i + n) nf k a 1 same in
  fst r = Raise ValueError /\
  built (self (snd r)) = true /\
  constructions (trace (snd r)) = (11 + constructions tr)%nat /\
  called_layers (trace (snd r))
  = [conv 8%nat (3, 1); conv 7%nat (1, 3); conv 6%nat (3, 1);
     conv 5%nat (1, 3); conv 4%nat (1, 1); conv 3%nat (3, 1);
     conv 2%nat (1, 3); conv 1%nat (1, 1); conv 0%nat (1, 1)]
    ++ called_layers tr /\
  concatenations (trace (snd r)) = concatenations tr.
Proof.
  intros Hx Hb1 Hb2 Hh Hw Hc Hf. cbv zeta.
  unfold inception_v2.DeepLayer.__call__.
  first_call_builds inception_v2.DeepLayer.__init__.
  unfold inception_v2.DeepLayer.call, inception_v2.DeepLayer.call_branches.
  erewrite bind_Raise;
    [| do 9 run_conv_rank_5;
       erewrite bind_Raise; [reflexivity |];
       erewrite call_attr_layer by (vm_compute; reflexivity);
       eapply apply_MaxPool2D_rank_5; eassumption ].
  cbn [fst snd self trace].
  split; [reflexivity |]. split; [reflexivity |].
  split; [reflexivity |]. split; reflexivity.
Qed.

Lemma v2_deep_on_2_1_32_32_3 :
  fst (inception_v2.DeepLayer.__call__
         (Tensor [2; 1; 32; 32; 3] (Input "y"))
         (State (inception_v2.DeepLayer.__init__ 28 relu None) 0 []))
  = Raise ValueError.
Proof.
  apply (v2_deep_on_a_rank_5_input 28 relu None
           (Tensor [2; 1; 32; 32; 3] (Input "y")) 2 1 32 32 3 0%nat []);
    [reflexivity | lia | lia | lia | lia | lia | lia].
Defined.

(** ** Repeated invocations of a Deep Block *)

Lemma Layer___call___later_calls build call x s r s' :
  reads_self_only (call x) ->
  (exists s1, build (shape x) s = (Ok tt, s1)) ->
  built (self s) = false ->
  Layer___call__ build call x s = (r, s') ->
  forall k,
    fst (Layer___call__ build call x
           (invoke_n (Layer___call__ build call) k x s')) = r.
Proof.
  intros Hpure Hbuild Hb Hfirst k.
  destruct Hbuild as ([o1 n1 tr1] & Hs1).
  rewrite (Layer___call___build_returns _ _ x s _ _ _ Hb Hs1) in Hfirst.
  destruct (Hpure (State (set_built true o1) n1 tr1))
    as (Hself & _ & _ & Hfst).
  rewrite Hfirst in Hself, Hfst. cbn [fst snd self] in Hself, Hfst.
  assert (Hbuilt : built (self s') = true) by now rewrite Hself.
  destruct (invoke_n_built build call x Hpure k s' Hbuilt) as (Hsk & _).
  rewrite Layer___call___built by now rewrite Hsk.
  apply Hfst. now rewrite Hsk.
Qed.

Lemma v2_deep___call___eq :
  inception_v2.DeepLayer.__call__
  = Layer___call__ inception_v2.DeepLayer.build inception_v2.DeepLayer.call.
Proof. reflexivity. Qed.

(** Every invocation of a Deep Block on the same image batch, the first and
    any later one, returns the same tensor: the concatenation [A, B, C, D]
    computed with the eleven sub-layers that the first invocation
    constructed. *)
Theorem v2_deep_every_invocation_returns_the_same_tensor
    nf a nm x b h w c n tr k :
  shape x = [b; h; w; c] -> 0 < b -> 0 < h -> 0 < w -> 0 < c -> 0 < nf ->
  let s_k :=
    invoke_n inception_v2.DeepLayer.__call__ k x
      (State (inception_v2.DeepLayer.__init__ nf a nm) n tr) in
  let conv (i : nat) k := Conv2D_layer (i + n) nf k a 1 same in
  let pool := MaxPool2D_layer (10 + n) (3, 3) 1 same in
  let A := Apply (conv 0%nat (1, 1)) (content x) in
  let B :=
    Apply (conv 3%nat (3, 1))
      (Apply (conv 2%nat (1, 3)) (Apply (conv 1%nat (1, 1)) (content x))) in
  let C :=
    Apply (conv 8%nat (3, 1))
      (Apply (conv 7%nat (1, 3))
         (Apply (conv 6%nat (3, 1))
            (Apply (conv 5%nat (1, 3))
               (Apply (conv 4%nat (1, 1)) (content x))))) in
  let D := Apply (conv 9%nat (1, 1)) (Apply pool (content x)) in
  fst (inception_v2.DeepLayer.__call__ x s_k)
  = Ok (Tensor [b; h; w; 4 * nf] (Concat (-1) [A; B; C; D])).
Proof.
  intros Hx Hb Hh Hw Hc Hf. cbv zeta.
  destruct (v2_deep_first_call nf a nm x b h w c n tr Hx Hb Hh Hw Hc Hf)
    as (s' & Hfirst & _).
  cbv zeta in Hfirst.
  destruct k as [|k]; [rewrite invoke_n_O; now rewrite Hfirst |].
  rewrite invoke_n_S, Hfirst. cbn [snd].
  rewrite v2_deep___call___eq in *.
  eapply (Layer___call___later_calls _ _ x _ _ s' (v2_deep_call_pure x));
    [| | exact Hfirst ]; [| reflexivity ].
  destruct (v2_deep_build (shape x)
              (State (inception_v2.DeepLayer.__init__ nf a nm) n tr) Hf)
    as (s1 & Hs1 & _).
  eauto.
Qed.

Lemma v2_deep_third_invocation_on_1_32_32_3 :
  result_shape
    (fst (inception_v2.DeepLayer.__call__ x_1_32_32_3
            (invoke_n inception_v2.DeepLayer.__call__ 2 x_1_32_32_3
               (State (inception_v2.DeepLayer.__init__ 28 relu None) 0 []))))
  = Some [1; 32; 32; 4 * 28].
Proof.
  rewrite (v2_deep_every_invocation_returns_the_same_tensor
             28 relu None x_1_32_32_3 1 32 32 3 0%nat [] 2);
    [reflexivity | reflexivity | lia | lia | lia | lia | lia].
Defined.

(** ** [call] after [build] in the four classes whose [build] raises *)

(** Runs [call] up to the attribute that [build] has not bound. *)
Ltac call_stops branches call :=
  let Hbr := fresh "Hbr" in
  match goal with
  | |- context [branches ?x ?s1] =>
      eassert (Hbr : branches x s1 = (Ok _, _))
        by (unfold branches; repeat run_layer; reflexivity)
  end;
  unfold call; erewrite (bind_Ok _ _ _ _ _ Hbr); rewrite Hbr;
  erewrite bind_Raise
    by (apply call_attr_list_missing; vm_compute; reflexivity);
  cbn [fst snd];
  split; [eexists; split; reflexivity |];
  split; [reflexivity |]; split; reflexivity.

(** In [BasicLayer] (V1), [ReductionLayer], [BasicLayer] (V2) and
    [WideLayer], [build] leaves the attribute that should hold the
    concatenation unbound.  On every image batch, [call] run on the
    attributes that [build] has created computes all its branch outputs
    (applying 4, 7, 8 and 10 sub-layers) and only then raises
    [AttributeError], at that attribute: it stops in the state in which the
    branches were computed, never returns a tensor and never concatenates. *)
Theorem call_after_build_raises_AttributeError nf a nm x b h w c n tr :
  shape x = [b; h; w; c] -> 0 < b -> 0 < h -> 0 < w -> 0 < c -> 0 < nf ->
  let stops_at (attr : string) (applied branches_made : nat)
        (branches : tensor -> M (list tensor)) (call : tensor -> M tensor)
        (s1 : state) :=
    dict (self s1) !! attr = None /\
    (exists outs,
       fst (branches x s1) = Ok outs /\ length outs = branches_made) /\
    call x s1 = (Raise AttributeError, snd (branches x s1)) /\
    applications (trace (snd (call x s1))) = (applied + applications tr)%nat /\
    concatenations (trace (snd (call x s1))) = concatenations tr in
  stops_at "concatenate" 4%nat 4%nat
    inception_v1.BasicLayer.call_branches inception_v1.BasicLayer.call
    (snd (inception_v1.BasicLayer.__call__ x
            (State (inception_v1.BasicLayer.__init__ a nm) n tr))) /\
  (forall o shp,
     inception_v1.ReductionLayer.__init__ a nm = Ok o ->
     stops_at "concatenate" 7%nat 4%nat
       inception_v1.ReductionLayer.call_branches
       inception_v1.ReductionLayer.call
       (snd (inception_v1.ReductionLayer.build shp (State o n tr)))) /\
  stops_at "concat_layer" 8%nat 4%nat
    inception_v2.BasicLayer.call_branches inception_v2.BasicLayer.call
    (snd (inception_v2.BasicLayer.__call__ x
            (State (inception_v2.BasicLayer.__init__ nf a nm) n tr))) /\
  stops_at "concat_layer" 10%nat 6%nat
    inception_v2.WideLayer.call_branches inception_v2.WideLayer.call
    (snd (inception_v2.WideLayer.__call__ x
            (State (inception_v2.WideLayer.__init__ nf a nm) n tr))).
Proof.
  intros Hx Hb Hh Hw Hc Hf. cbv zeta.
  split.
  { unfold inception_v1.BasicLayer.__call__.
    first_call_raises inception_v1.BasicLayer.__init__. cbn [snd].
    split; [vm_compute; reflexivity |].
    call_stops inception_v1.BasicLayer.call_branches
      inception_v1.BasicLayer.call. }
  split.
  { intros o shp Ho. unfold inception_v1.ReductionLayer.__init__ in Ho.
    destruct (truthy nm); [discriminate Ho |].
    injection Ho as <-.
    run_python. cbn [snd].
    split; [vm_compute; reflexivity |].
    call_stops inception_v1.ReductionLayer.call_branches
      inception_v1.ReductionLayer.call. }
  split.
  { unfold inception_v2.BasicLayer.__call__.
    first_call_raises inception_v2.BasicLayer.__init__. cbn [snd].
    split; [vm_compute; reflexivity |].
    call_stops inception_v2.BasicLayer.call_branches
      inception_v2.BasicLayer.call. }
  unfold inception_v2.WideLayer.__call__.
  first_call_raises inception_v2.WideLayer.__init__. cbn [snd].
  split; [vm_compute; reflexivity |].
  call_stops inception_v2.WideLayer.call_branches
    inception_v2.WideLayer.call.
Qed.

Lemma v2_wide_call_after_build_on_1_32_32_3 :
  fst (inception_v2.WideLayer.call x_1_32_32_3
         (snd (inception_v2.WideLayer.__call__ x_1_32_32_3
                 (State (inception_v2.WideLayer.__init__ 28 relu None)
                    0 []))))
  = Raise AttributeError.
Proof.
  pose proof (call_after_build_raises_AttributeError
                28 relu None x_1_32_32_3 1 32 32 3 0%nat []) as H.
  cbv zeta in H.
  destruct H as (_ & _ & _ & (_ & _ & H & _));
    [reflexivity | lia | lia | lia | lia | lia |].
  now rewrite H.
Defined.

(** ** Rebuilding in the Basic (V2) and Wide Blocks *)

(** [BasicLayer] (V2) and [WideLayer] are never marked built, because
    [build] raises at its last line: every invocation runs [build] again,
    so with a positive filter count [8 * k] and [10 * k] sub-layers have been
    constructed after [k] invocations, whatever the input.  With a filter
    count that is not positive [build] raises at its first line instead, and
    [k] invocations leave the instance as the constructor made it. *)
Theorem v2_basic_and_wide_rebuild_on_every_invocation nf a nm x n tr k :
  let b0 := State (inception_v2.BasicLayer.__init__ nf a nm) n tr in
  let w0 := State (inception_v2.WideLayer.__init__ nf a nm) n tr in
  let s_basic := invoke_n inception_v2.BasicLayer.__call__ k x b0 in
  let s_wide := invoke_n inception_v2.WideLayer.__call__ k x w0 in
  (0 < nf ->
   constructions (trace s_basic) = (k * 8 + constructions tr)%nat /\
   built (self s_basic) = false /\
   constructions (trace s_wide) = (k * 10 + constructions tr)%nat /\
   built (self s_wide) = false) /\
  (nf <= 0 -> s_basic = b0 /\ s_wide = w0).
Proof.
  cbv zeta. split; intros Hf.
  - destruct (invoke_n_raising inception_v2.BasicLayer.__call__ x 8 _
                (v2_basic_unbuilt x) k
                (State (inception_v2.BasicLayer.__init__ nf a nm) n tr)
                (conj eq_refl Hf))
      as ((Hb & _) & Hc & _).
    destruct (invoke_n_raising inception_v2.WideLayer.__call__ x 10 _
                (v2_wide_unbuilt x) k
                (State (inception_v2.WideLayer.__init__ nf a nm) n tr)
                (conj eq_refl Hf))
      as ((Hb' & _) & Hc' & _).
    split; [exact Hc |]. split; [exact Hb |].
    split; [exact Hc' | exact Hb'].
  - split.
    + exact (invoke_n_rejected inception_v2.BasicLayer.__call__ x
               ValueError _ (v2_basic_rejected x) k
               (State (inception_v2.BasicLayer.__init__ nf a nm) n tr)
               (conj eq_refl Hf)).
    + exact (invoke_n_rejected inception_v2.WideLayer.__call__ x
               ValueError _ (v2_wide_rejected x) k
               (State (inception_v2.WideLayer.__init__ nf a nm) n tr)
               (conj eq_refl Hf)).
Qed.

Lemma v2_wide_three_invocations_on_1_32_32_3 :
  constructions
    (trace (invoke_n inception_v2.WideLayer.__call__ 3 x_1_32_32_3
              (State (inception_v2.WideLayer.__init__ 28 relu None) 0 [])))
  = 30%nat.
Proof.
  apply (proj1 (v2_basic_and_wide_rebuild_on_every_invocation
                  28 relu None x_1_32_32_3 0%nat [] 3)).
  lia.
Defined.

(** ** Every sub-layer of a Wide Block is applied *)

(** On the sub-layers that [build] creates, [call] of a Wide Block applies
    each of its ten sub-layers exactly once on every image batch, in the
    order of the source; the 3x1 convolution of branch C ([conv_3_1c]) is
    among them although its output is in none of the six elements of the
    list that is handed to the concatenation. *)
Theorem v2_wide_applies_all_ten_sub_layers nf a nm x b h w c n tr :
  shape x = [b; h; w; c] -> 0 < b -> 0 < h -> 0 < w -> 0 < c -> 0 < nf ->
  let s1 :=
    snd (inception_v2.WideLayer.__call__ x
           (State (inception_v2.WideLayer.__init__ nf a nm) n tr)) in
  let s2 := snd (inception_v2.WideLayer.call_branches x s1) in
  let conv (i : nat) k := Conv2D_layer (i + n) nf k a 1 same in
  let pool := MaxPool2D_layer (9 + n) (3, 3) 1 same in
  dict (self s1) !! "conv_3_1c" = Some (VLayer (conv 7%nat (3, 1))) /\
  called_layers (trace s2)
  = [conv 8%nat (1, 1); pool; conv 7%nat (3, 1); conv 6%nat (1, 3);
     conv 5%nat (3, 3); conv 4%nat (1, 1); conv 3%nat (3, 1);
     conv 2%nat (1, 3); conv 1%nat (1, 1); conv 0%nat (1, 1)]
    ++ called_layers tr /\
  concatenations (trace s2) = concatenations tr /\
  constructions (trace s2) = (10 + constructions tr)%nat.
Proof.
  intros Hx Hb Hh Hw Hc Hf. cbv zeta.
  unfold inception_v2.WideLayer.__call__.
  first_call_raises inception_v2.WideLayer.__init__. cbn [snd].
  split; [vm_compute; reflexivity |].
  unfold inception_v2.WideLayer.call_branches.
  do 10 run_layer.
  split; [reflexivity |]. split; reflexivity.
Qed.

Lemma v2_wide_applies_conv_3_1c_on_1_32_32_3 :
  dict (self (snd (inception_v2.WideLayer.__call__ x_1_32_32_3
                     (State (inception_v2.WideLayer.__init__ 28 relu None)
                        0 []))))
    !! "conv_3_1c"
  = Some (VLayer (Conv2D_layer 7 28 (3, 1) relu 1 same)).
Proof.
  apply (v2_wide_applies_all_ten_sub_layers
           28 relu None x_1_32_32_3 1 32 32 3 0%nat []);
    [reflexivity | lia | lia | lia | lia | lia].
Defined.

(** ** The work of a Deep Block *)

Lemma NoDup_by_uid (ls : list layer) :
  NoDup (map layer_uid ls) -> NoDup ls.
Proof. apply NoDup_fmap_1. Qed.

Lemma concat_repeat_comm {A} (l : list A) j :
  concat (repeat l j) ++ l = l ++ concat (repeat l j).
Proof.
  induction j as [|j IH]; cbn [repeat concat].
  - now rewrite app_nil_r.
  - now rewrite <- app_assoc, IH.
Qed.

Lemma v2_deep_built_instance nf a nm x b h w c n :
  shape x = [b; h; w; c] -> 0 < b -> 0 < h -> 0 < w -> 0 < c -> 0 < nf ->
  let conv (i : nat) k := Conv2D_layer (i + n) nf k a 1 same in
  let pool := MaxPool2D_layer (10 + n) (3, 3) 1 same in
  let rest :=
    [conv 8%nat (3, 1); conv 7%nat (1, 3); conv 6%nat (3, 1);
     conv 5%nat (1, 3); conv 4%nat (1, 1); conv 3%nat (3, 1);
     conv 2%nat (1, 3); conv 1%nat (1, 1); conv 0%nat (1, 1)] in
  exists o t,
    built o = true /\
    (forall tr, exists tr1,
       inception_v2.DeepLayer.__call__ x
         (State (inception_v2.DeepLayer.__init__ nf a nm) n tr)
       = (Ok t, State o (11 + n) tr1) /\
       constructed_layers tr1
       = pool :: conv 9%nat (1, 1) :: rest ++ constructed_layers tr /\
       called_layers tr1
       = conv 9%nat (1, 1) :: pool :: rest ++ called_layers tr /\
       constructions tr1 = (11 + constructions tr)%nat /\
       applications tr1 = (11 + applications tr)%nat /\
       concatenations tr1 = (1 + concatenations tr)%nat) /\
    (forall m tr, exists tr1,
       inception_v2.DeepLayer.call x (State o m tr) = (Ok t, State o m tr1) /\
       constructed_layers tr1 = constructed_layers tr /\
       called_layers tr1
       = conv 9%nat (1, 1) :: pool :: rest ++ called_layers tr /\
       constructions tr1 = constructions tr /\
       applications tr1 = (11 + applications tr)%nat /\
       concatenations tr1 = (1 + concatenations tr)%nat).
Proof.
  intros Hx Hb Hh Hw Hc Hf. cbv zeta.
  eexists. eexists. split; [| split]; cycle 1.
  - intros tr. eexists. split.
    + unfold inception_v2.DeepLayer.__call__.
      first_call_builds inception_v2.DeepLayer.__init__.
      unfold inception_v2.DeepLayer.call,
        inception_v2.DeepLayer.call_branches.
      erewrite bind_Ok; [| do 11 run_layer; reflexivity ].
      erewrite bind_Ok;
        [| eapply concatenate_channels with (cs := [_; _]); reflexivity ].
      reflexivity.
    + split; [reflexivity |]. split; [reflexivity |].
      split; [reflexivity |]. split; reflexivity.
  - intros m tr. eexists. split.
    + unfold inception_v2.DeepLayer.call,
        inception_v2.DeepLayer.call_branches.
      erewrite bind_Ok; [| do 11 run_layer; reflexivity ].
      erewrite bind_Ok;
        [| eapply concatenate_channels with (cs := [_; _]); reflexivity ].
      reflexivity.
    + split; [reflexivity |]. split; [reflexivity |].
      split; [reflexivity |]. split; reflexivity.
  - reflexivity.
Qed.

(** After [k + 1] invocations of a Deep Block on the same image batch, the
    sub-layers constructed are the eleven of the first invocation, all
    different objects, and every invocation has applied each of these eleven
    exactly once, in the order of [call] (the max-pool before the 1x1
    convolution of branch D, which [build] constructs in the other order),
    and has concatenated once. *)
Theorem v2_deep_work_of_repeated_invocations nf a nm x b h w c n tr k :
  shape x = [b; h; w; c] -> 0 < b -> 0 < h -> 0 < w -> 0 < c -> 0 < nf ->
  let s :=
    invoke_n inception_v2.DeepLayer.__call__ (S k) x
      (State (inception_v2.DeepLayer.__init__ nf a nm) n tr) in
  let conv (i : nat) k := Conv2D_layer (i + n) nf k a 1 same in
  let pool := MaxPool2D_layer (10 + n) (3, 3) 1 same in
  let rest :=
    [conv 8%nat (3, 1); conv 7%nat (1, 3); conv 6%nat (3, 1);
     conv 5%nat (1, 3); conv 4%nat (1, 1); conv 3%nat (3, 1);
     conv 2%nat (1, 3); conv 1%nat (1, 1); conv 0%nat (1, 1)] in
  let made := pool :: conv 9%nat (1, 1) :: rest in
  let pass := conv 9%nat (1, 1) :: pool :: rest in
  constructed_layers (trace s) = made ++ constructed_layers tr /\
  NoDup made /\
  Permutation pass made /\
  called_layers (trace s) = concat (repeat pass (S k)) ++ called_layers tr /\
  constructions (trace s) = (11 + constructions tr)%nat /\
  applications (trace s) = (S k * 11 + applications tr)%nat /\
  concatenations (trace s) = (S k + concatenations tr)%nat.
Proof.
  intros Hx Hb Hh Hw Hc Hf. cbv zeta.
  destruct (v2_deep_built_instance nf a nm x b h w c n Hx Hb Hh Hw Hc Hf)
    as (o & t & Hbuilt & Hfirst & Hlater).
  cbv zeta in Hfirst, Hlater.
  set (rest := [Conv2D_layer (8 + n) nf (3, 1) a 1 same;
                Conv2D_layer (7 + n) nf (1, 3) a 1 same;
                Conv2D_layer (6 + n) nf (3, 1) a 1 same;
                Conv2D_layer (5 + n) nf (1, 3) a 1 same;
                Conv2D_layer (4 + n) nf (1, 1) a 1 same;
                Conv2D_layer (3 + n) nf (3, 1) a 1 same;
                Conv2D_layer (2 + n) nf (1, 3) a 1 same;
                Conv2D_layer (1 + n) nf (1, 1) a 1 same;
                Conv2D_layer (0 + n) nf (1, 1) a 1 same]) in *.
  set (pool := MaxPool2D_layer (10 + n) (3, 3) 1 same) in *.
  set (conv9 := Conv2D_layer (9 + n) nf (1, 1) a 1 same) in *.
  set (pass := conv9 :: pool :: rest) in *.
  split; [| split; [| split]]; cycle 1.
  - apply NoDup_by_uid. subst pool conv9 rest. cbn [map layer_uid].
    repeat (apply NoDup_cons; split;
            [rewrite ?elem_of_cons, elem_of_nil; lia |]).
    apply NoDup_nil_2.
  - apply perm_swap.
  - rewrite invoke_n_S.
    destruct (Hfirst tr) as (tr1 & -> & Hm1 & Hl1 & Hc1 & Ha1 & Hk1).
    cbn [snd].
    rewrite v2_deep___call___eq.
    assert (Hinv : forall j m tr0,
      let s := invoke_n
                 (Layer___call__ inception_v2.DeepLayer.build
                    inception_v2.DeepLayer.call) j x (State o m tr0) in
      called_layers (trace s)
      = concat (repeat pass j) ++ called_layers tr0 /\
      constructions (trace s) = constructions tr0 /\
      applications (trace s) = (j * 11 + applications tr0)%nat /\
      concatenations (trace s) = (j + concatenations tr0)%nat).
    { induction j as [|j IH]; intros m tr0; cbv zeta.
      - rewrite invoke_n_O. cbn [trace]. auto.
      - rewrite invoke_n_S, Layer___call___built by exact Hbuilt.
        destruct (Hlater m tr0) as (tr2 & -> & _ & Hl2 & Hc2 & Ha2 & Hk2).
        cbn [snd].
        destruct (IH m tr2) as (IHl & IHc & IHa & IHk).
        rewrite IHl, IHc, IHa, IHk, Hl2, Hc2, Ha2, Hk2.
        split; [| lia].
        cbn [repeat concat].
        change (conv9 :: pool :: rest ++ called_layers tr0)
          with (pass ++ called_layers tr0).
        now rewrite !app_assoc, concat_repeat_comm. }
    destruct (Hinv k (11 + n)%nat tr1) as (Hlk & Hck & Hak & Hkk).
    split.
    + rewrite Hlk, Hl1. cbn [repeat concat].
      change (conv9 :: pool :: rest ++ called_layers tr)
        with (pass ++ called_layers tr).
      now rewrite !app_assoc, concat_repeat_comm.
    + rewrite Hck, Hak, Hkk, Hc1, Ha1, Hk1. lia.
  - rewrite invoke_n_S.
    destruct (Hfirst tr) as (tr1 & -> & Hm1 & _). cbn [snd].
    rewrite v2_deep___call___eq.
    assert (Hinv : forall j m tr0,
      constructed_layers
        (trace (invoke_n
                  (Layer___call__ inception_v2.DeepLayer.build
                     inception_v2.DeepLayer.call) j x (State o m tr0)))
      = constructed_layers tr0).
    { induction j as [|j IH]; intros m tr0.
      - now rewrite invoke_n_O.
      - rewrite invoke_n_S, Layer___call___built by exact Hbuilt.
        destruct (Hlater m tr0) as (tr2 & -> & Hm2 & _). cbn [snd].
        now rewrite IH. }
    now rewrite Hinv.
Qed.

Lemma v2_deep_work_of_three_invocations :
  applications
    (trace (invoke_n inception_v2.DeepLayer.__call__ 3 x_1_32_32_3
              (State (inception_v2.DeepLayer.__init__ 28 relu None) 0 [])))
  = 33%nat.
Proof.
  apply (v2_deep_work_of_repeated_invocations
           28 relu None x_1_32_32_3 1 32 32 3 0%nat [] 2);
    [reflexivity | lia | lia | lia | lia | lia].
Defined.
